(** * no-extraneous-dependencies: a shallow embedding of the lint rule

    The rule of [src/rules/no-extraneous-dependencies.js] reads the nearest
    [package.json], merges the manifests of the configured [packageDir]
    directories into it, and reports every import or static require of an
    external package that the merged manifest does not list.

    The embedding follows the JavaScript text function by function.  Plain
    objects parsed from JSON are finite maps of their own properties, looked
    up through the prototype chain as JavaScript does; [context.report] and
    the calls to the collaborators the rule imports (read-pkg-up, fs,
    importType, resolve) are effects of a small state-and-exception monad
    whose state records them in order. *)

From Stdlib Require Import Ascii String.
From stdpp Require Import base option list strings gmap fin_maps.

Local Open Scope string_scope.
Local Open Scope list_scope.

(** ** Strings *)

Module JSString.

(** [s.split(sep)] for a one-character separator: never empty, the empty
    string splits into one empty segment. *)
Fixpoint split (sep : ascii) (s : string) : list string :=
  match s with
  | EmptyString => [EmptyString]
  | String c rest =>
      if decide (c = sep) then EmptyString :: split sep rest
      else match split sep rest with
           | seg :: segs => String c seg :: segs
           | [] => [String c EmptyString]
           end
  end.

(** [segs.join(sep)] *)
Fixpoint join (sep : string) (segs : list string) : string :=
  match segs with
  | [] => EmptyString
  | [seg] => seg
  | seg :: rest => seg +:+ sep +:+ join sep rest
  end.

(** [s[0]]: the first character, [None] for [undefined]. *)
Definition char0 (s : string) : option ascii :=
  match s with
  | EmptyString => None
  | String c _ => Some c
  end.

(** The string has no occurrence of the character. *)
Fixpoint free_of (sep : ascii) (s : string) : bool :=
  match s with
  | EmptyString => true
  | String c rest => negb (bool_decide (c = sep)) && free_of sep rest
  end.

End JSString.

(** ** Plain objects used as maps *)

Module JSObject.

(** The own enumerable properties of an object that [JSON.parse] built
    from a dependency section: package name to version string. *)
Abbreviation t := (gmap string string).

(** The property names every plain object inherits from
    [Object.prototype]; reading any of them gives a value other than
    [undefined]. *)
Definition Object_prototype : list string :=
  [ "constructor"; "hasOwnProperty"; "isPrototypeOf";
    "propertyIsEnumerable"; "toLocaleString"; "toString"; "valueOf";
    "__proto__"; "__defineGetter__"; "__defineSetter__";
    "__lookupGetter__"; "__lookupSetter__" ].

Definition inherited (k : string) : bool :=
  bool_decide (k ∈ Object_prototype).

Definition own (o : t) (k : string) : bool :=
  bool_decide (is_Some (o !! k)).

(** [o[k] !== undefined]: an own property (its value is a JSON value,
    never [undefined]) or an inherited one. *)
Definition defined_at (o : t) (k : string) : bool :=
  own o k || inherited k.

(** [o[k] = v] for a string [v].  Writing [__proto__] on an object
    without an own property of that name runs the inherited setter, which
    ignores a value that is neither an object nor [null]. *)
Definition set (o : t) (k v : string) : t :=
  if bool_decide (k = "__proto__") && negb (own o k) then o
  else <[k := v]> o.

(** [Object.assign(target, source)]: every own enumerable property of
    [source] is written on [target].  The keys of [source] are distinct, so
    the order in which they are written does not show in the result. *)
Definition assign (target source : t) : t :=
  map_fold (λ k v acc, set acc k v) target source.

(** [Object.keys(o)] *)
Definition keys (o : t) : list string := (map_to_list o).*1.

End JSObject.

(** ** Package names and messages *)

(** Lines 108-111 of [reportIfMissing]. *)
Definition packageName (name : string) : string :=
  let splitName := JSString.split "/" name in
  let first := hd EmptyString splitName in
  if bool_decide (JSString.char0 first = Some "@"%char)
  then JSString.join "/" (take 2 splitName)
  else first.

Definition missingErrorMessage (packageName : string) : string :=
  "'" +:+ packageName +:+ "' should be listed in the project's dependencies. " +:+
  "Run 'npm i -S " +:+ packageName +:+ "' to add it".

Definition devDepErrorMessage (packageName : string) : string :=
  "'" +:+ packageName +:+
  "' should be listed in the project's dependencies, not devDependencies.".

Definition optDepErrorMessage (packageName : string) : string :=
  "'" +:+ packageName +:+ "' should be listed in the project's dependencies, " +:+
  "not optionalDependencies.".

(** ** Values the rule handles *)

(** A thrown error, with the properties the [catch] block inspects. *)
Record JSError := {
  code : option string;            (* e.code *)
  name : string;                   (* e.name *)
  instanceof_SyntaxError : bool;   (* e instanceof SyntaxError *)
  message : string                 (* e.message *)
}.

(** The error of reading a property of [undefined]; the wording of its
    message is the engine's. *)
Definition TypeError (msg : string) : JSError :=
  {| code := None; name := "TypeError";
     instanceof_SyntaxError := false; message := msg |}.

(** A parsed [package.json]: each dependency section is an object or is
    absent. *)
Record Manifest := {
  pkg_dependencies : option JSObject.t;
  pkg_devDependencies : option JSObject.t;
  pkg_optionalDependencies : option JSObject.t;
  pkg_peerDependencies : option JSObject.t
}.

(** The result of [extractDepFields]: the dependency table. *)
Record Deps := {
  dependencies : JSObject.t;
  devDependencies : JSObject.t;
  optionalDependencies : JSObject.t;
  peerDependencies : JSObject.t
}.

(** What [readPkgUp.sync] returns: an object whose [pkg] and [path] the rule
    reads without testing them. *)
Record Closest := {
  pkg : option Manifest;
  path : option string
}.

(** The nodes the rule listens to.  [argument0] is
    [node.arguments[0].value], read only after [isStaticRequire]. *)
Inductive Node :=
| ImportDeclaration (importKind : option string) (source_value : string)
| CallExpression (argument0 : string)
| OtherNode.

Definition importKind_of (node : Node) : option string :=
  match node with
  | ImportDeclaration k _ => k
  | _ => None
  end.

Inductive Loc :=
| AtNode (node : Node)
| AtPosition (line column : nat).

(** The descriptor handed to [context.report]. *)
Module Report.
Record t := {
  loc : Loc;
  message : string
}.
End Report.

(** An option of the rule: absent, a boolean, or an array of globs. *)
Inductive Config :=
| Undefined
| Boolean (b : bool)
| Globs (patterns : list string).

(** The [packageDir] option: absent, one string, or an array. *)
Inductive PackageDir :=
| NoPackageDir
| OneDir (dir : string)
| ManyDirs (dirs : list string).

Record Options := {
  opt_devDependencies : Config;
  opt_optionalDependencies : Config;
  opt_peerDependencies : Config;
  opt_packageDir : PackageDir
}.

(** [context.options[0] || {}] *)
Definition no_options : Options :=
  {| opt_devDependencies := Undefined; opt_optionalDependencies := Undefined;
     opt_peerDependencies := Undefined; opt_packageDir := NoPackageDir |}.

Record Context := {
  getFilename : string;
  options0 : option Options
}.

Record DepsOptions := {
  allowDevDeps : bool;
  allowOptDeps : bool;
  allowPeerDeps : bool
}.

(** ** Collaborators

    What the rule imports and does not define: the manifest locator and
    reader, the path and glob libraries, the module resolver, the specifier
    classifier and the static-require test. *)
Class Externals := {
  (* readPkgUp.sync({cwd, normalize: false}): the nearest manifest above
     [cwd] and its path, an object with neither when there is none; throws
     when the manifest it found cannot be read or parsed *)
  readPkgUp_sync : string → JSError + Closest;
  (* fs.readFileSync(file, 'utf8') *)
  fs_readFileSync : string → JSError + string;
  (* JSON.parse(content), for a manifest *)
  JSON_parse : string → JSError + Manifest;
  (* path.resolve(dir, file) and path.join(dir, file) *)
  path_resolve : string → string → string;
  path_join : string → string → string;
  (* process.cwd() *)
  process_cwd : string;
  (* minimatch(filename, pattern) *)
  minimatch : string → string → bool;
  (* resolve(name, context): the resolved path, [None] for undefined or null *)
  resolve : string → option string;
  (* importType(name, context) *)
  importType : string → string;
  isStaticRequire : Node → bool;
  (* the message of the TypeError for a property read on undefined *)
  undefined_property_message : string
}.

(** ** Effects *)

Inductive Call :=
| CallReadPkgUp (cwd : string)
| CallReadFileSync (file : string)
| CallImportType (specifier : string)
| CallResolve (specifier : string).

(** The reports made and the collaborators called so far, oldest first. *)
Record World := {
  reports : list Report.t;
  calls : list Call
}.

Definition start : World := {| reports := []; calls := [] |}.

Inductive Completion (A : Type) :=
| Normal (a : A)
| Throw (e : JSError).
Arguments Normal {A} a.
Arguments Throw {A} e.

Definition M (A : Type) : Type := World → Completion A * World.

#[global] Instance M_ret : MRet M := λ A a w, (Normal a, w).

#[global] Instance M_bind : MBind M := λ A B f m w,
  match m w with
  | (Normal a, w') => f a w'
  | (Throw e, w') => (Throw e, w')
  end.

Definition throw {A} (e : JSError) : M A := λ w, (Throw e, w).

(** [try { m } catch (e) { h e }] *)
Definition try_catch {A} (m : M A) (h : JSError → M A) : M A := λ w,
  match m w with
  | (Throw e, w') => h e w'
  | r => r
  end.

Definition context_report (r : Report.t) : M unit := λ w,
  (Normal (), {| reports := (reports w ++ [r])%list; calls := calls w |}).

Definition called (c : Call) : M unit := λ w,
  (Normal (), {| reports := reports w; calls := (calls w ++ [c])%list |}).

Definition of_result {A} (r : JSError + A) : M A :=
  match r with
  | inl e => throw e
  | inr a => mret a
  end.

(** [array.reduce(f, init)] with an effectful callback. *)
Fixpoint reduce {A B} (f : B → A → M B) (l : list A) (acc : B) : M B :=
  match l with
  | [] => mret acc
  | x :: rest => acc' ← f acc x; reduce f rest acc'
  end.

(** ** The rule *)

Section Rule.
Context `{Externals}.

Definition hasKeys (obj : JSObject.t) : bool :=
  bool_decide (0 < length (JSObject.keys obj)).

(** The object [extractDepFields] builds from a manifest. *)
Definition depFields (pkg : Manifest) : Deps :=
  {| dependencies := default ∅ (pkg_dependencies pkg);
     devDependencies := default ∅ (pkg_devDependencies pkg);
     optionalDependencies := default ∅ (pkg_optionalDependencies pkg);
     peerDependencies := default ∅ (pkg_peerDependencies pkg) |}.

(** [pkg] may be [undefined], and reading a property of it then throws. *)
Definition extractDepFields (pkg : option Manifest) : M Deps :=
  match pkg with
  | None => throw (TypeError undefined_property_message)
  | Some pkg => mret (depFields pkg)
  end.

(** The objects of [fromDeps] are updated in place; the updated table is
    returned. *)
Definition assignDeps (fromDeps toDeps : Deps) : Deps :=
  {| dependencies := JSObject.assign (dependencies fromDeps) (dependencies toDeps);
     devDependencies := JSObject.assign (devDependencies fromDeps) (devDependencies toDeps);
     optionalDependencies :=
       JSObject.assign (optionalDependencies fromDeps) (optionalDependencies toDeps);
     peerDependencies := JSObject.assign (peerDependencies fromDeps) (peerDependencies toDeps) |}.

(** [packageDir ? [].concat(packageDir) : []]; the empty string is falsy. *)
Definition packageDirs (packageDir : PackageDir) : list string :=
  match packageDir with
  | NoPackageDir => []
  | OneDir dir => if bool_decide (dir = EmptyString) then [] else [dir]
  | ManyDirs dirs => dirs
  end.

(** The callback of the [reduce] of lines 38-51; [files] is the array the
    callback pushes to. *)
Definition mergeDir (acc : list (option string) * Deps) (dir : string)
  : M (list (option string) * Deps) :=
  let '(files, allDeps) := acc in
  let pkgFile := path_resolve dir "package.json" in
  if bool_decide (Some pkgFile ∈ files) then mret (files, allDeps)
  else
    let files := (files ++ [Some pkgFile])%list in
    called (CallReadFileSync pkgFile);;
    content ← of_result (fs_readFileSync pkgFile);
    json ← of_result (JSON_parse content);
    toDeps ← extractDepFields (Some json);
    mret (files, assignDeps allDeps toDeps).

(** Lines 34-51: the table after every merge. *)
Definition mergedDependencies (context : Context) (packageDir : PackageDir)
  : M Deps :=
  called (CallReadPkgUp (getFilename context));;
  closest ← of_result (readPkgUp_sync (getFilename context));
  let files := [path closest] in
  let dirs := packageDirs packageDir in
  init ← extractDepFields (pkg closest);
  '(_, deps) ← reduce mergeDir dirs (files, init);
  mret deps.

(** The [try] block of [getDependencies]; [None] is the [undefined] the
    function returns when no section has a key. *)
Definition getDependencies_try (context : Context) (packageDir : PackageDir)
  : M (option Deps) :=
  deps ← mergedDependencies context packageDir;
  if existsb hasKeys [dependencies deps; devDependencies deps;
                      optionalDependencies deps; peerDependencies deps]
  then mret (Some deps)
  else mret None.

(** The [catch] block. *)
Definition getDependencies_catch (e : JSError) : M (option Deps) :=
  (if bool_decide (code e = Some "ENOENT") then
     context_report {| Report.message := "The package.json file could not be found.";
                       Report.loc := AtPosition 0 0 |}
   else if bool_decide (name e = "JSONError") || instanceof_SyntaxError e then
     context_report {| Report.message := "The package.json file could not be parsed: " +:+ message e;
                       Report.loc := AtPosition 0 0 |}
   else
     context_report {| Report.message := message e; Report.loc := AtPosition 0 0 |});;
  mret None.

Definition getDependencies (context : Context) (packageDir : PackageDir)
  : M (option Deps) :=
  try_catch (getDependencies_try context packageDir) getDependencies_catch.

(** [!resolved] *)
Definition falsy (resolved : option string) : bool :=
  match resolved with
  | None => true
  | Some p => bool_decide (p = EmptyString)
  end.

Definition reportIfMissing (deps : Deps) (depsOptions : DepsOptions)
    (node : Node) (name : string) : M unit :=
  if bool_decide (importKind_of node = Some "type") then mret ()
  else
    called (CallImportType name);;
    if negb (bool_decide (importType name = "external")) then mret ()
    else
      called (CallResolve name);;
      let resolved := resolve name in
      if falsy resolved then mret ()
      else
        let packageName := packageName name in
        let isInDeps := JSObject.defined_at (dependencies deps) packageName in
        let isInDevDeps := JSObject.defined_at (devDependencies deps) packageName in
        let isInOptDeps := JSObject.defined_at (optionalDependencies deps) packageName in
        let isInPeerDeps := JSObject.defined_at (peerDependencies deps) packageName in
        if isInDeps
           || (allowDevDeps depsOptions && isInDevDeps)
           || (allowPeerDeps depsOptions && isInPeerDeps)
           || (allowOptDeps depsOptions && isInOptDeps)
        then mret ()
        else if isInDevDeps && negb (allowDevDeps depsOptions) then
          context_report {| Report.loc := AtNode node; Report.message := devDepErrorMessage packageName |}
        else if isInOptDeps && negb (allowOptDeps depsOptions) then
          context_report {| Report.loc := AtNode node; Report.message := optDepErrorMessage packageName |}
        else
          context_report {| Report.loc := AtNode node; Report.message := missingErrorMessage packageName |}.

(** [None] is [undefined]. *)
Definition testConfig (config : Config) (filename : string) : option bool :=
  match config with
  | Undefined => None
  | Boolean b => Some b
  | Globs patterns =>
      Some (existsb (λ c, minimatch filename c
                          || minimatch filename (path_join process_cwd c))
                    patterns)
  end.

(** [x !== false] *)
Definition not_false (x : option bool) : bool :=
  negb (bool_decide (x = Some false)).

(** The object [create] returns: a handler per node type, or none. *)
Record Listeners := {
  on_ImportDeclaration : option (Node → M unit);
  on_CallExpression : option (Node → M unit)
}.

Definition depsOptions_of (options : Options) (filename : string) : DepsOptions :=
  {| allowDevDeps := not_false (testConfig (opt_devDependencies options) filename);
     allowOptDeps := not_false (testConfig (opt_optionalDependencies options) filename);
     allowPeerDeps := not_false (testConfig (opt_peerDependencies options) filename) |}.

Definition create (context : Context) : M Listeners :=
  let options := default no_options (options0 context) in
  let filename := getFilename context in
  deps ← getDependencies context (opt_packageDir options);
  match deps with
  | None => mret {| on_ImportDeclaration := None; on_CallExpression := None |}
  | Some deps =>
      let depsOptions := depsOptions_of options filename in
      mret {|
        on_ImportDeclaration := Some (λ node,
          match node with
          | ImportDeclaration _ value => reportIfMissing deps depsOptions node value
          | _ => mret ()
          end);
        on_CallExpression := Some (λ node,
          if isStaticRequire node then
            match node with
            | CallExpression value => reportIfMissing deps depsOptions node value
            | _ => mret ()
            end
          else mret ())
      |}
  end.

(** The linter's traversal: each node goes to the handler registered for
    its type, if there is one. *)
Definition visit (listeners : Listeners) (node : Node) : M unit :=
  match node with
  | ImportDeclaration _ _ => default (λ _, mret ()) (on_ImportDeclaration listeners) node
  | CallExpression _ => default (λ _, mret ()) (on_CallExpression listeners) node
  | OtherNode => mret ()
  end.

Fixpoint traverse (listeners : Listeners) (nodes : list Node) : M unit :=
  match nodes with
  | [] => mret ()
  | node :: rest => visit listeners node;; traverse listeners rest
  end.

Definition lint (context : Context) (nodes : list Node) : M unit :=
  listeners ← create context; traverse listeners nodes.

(** ** Vocabulary of the properties *)

(** The specifier passes the three guards of [reportIfMissing]: it is not a
    type import, it is external, and it resolves. *)
Definition checkable (node : Node) (name : string) : Prop :=
  importKind_of node ≠ Some "type" ∧
  importType name = "external" ∧
  falsy (resolve name) = false.

(** One of the three guards stops the specifier. *)
Definition exempt (node : Node) (name : string) : Prop :=
  importKind_of node = Some "type" ∨
  importType name ≠ "external" ∨
  falsy (resolve name) = true.

(** The collaborators [reportIfMissing] has asked by the time it leaves
    through a guard, in the order of the guards. *)
Definition consulted (node : Node) (name : string) : list Call :=
  if bool_decide (importKind_of node = Some "type") then []
  else if negb (bool_decide (importType name = "external")) then [CallImportType name]
  else [CallImportType name; CallResolve name].

(** The manifest files the [reduce] reads for a list of directories, given
    the files already consulted: each resolved path once. *)
Fixpoint fresh_files (files : list (option string)) (dirs : list string) : list string :=
  match dirs with
  | [] => []
  | dir :: rest =>
      let pkgFile := path_resolve dir "package.json" in
      if bool_decide (Some pkgFile ∈ files) then fresh_files files rest
      else pkgFile :: fresh_files (files ++ [Some pkgFile])%list rest
  end.

(** The file can be read and holds the manifest. *)
Definition holds (file : string) (manifest : Manifest) : Prop :=
  ∃ content, fs_readFileSync file = inr content ∧ JSON_parse content = inr manifest.

End Rule.

Inductive Category := Runtime | Development | Optional | Peer.

Definition section_of (c : Category) (deps : Deps) : JSObject.t :=
  match c with
  | Runtime => dependencies deps
  | Development => devDependencies deps
  | Optional => optionalDependencies deps
  | Peer => peerDependencies deps
  end.



(** The world once the two collaborators of the guards have been asked. *)
Definition asked (w : World) (name : string) : World :=
  {| reports := reports w;
     calls := (calls w ++ [CallImportType name; CallResolve name])%list |}.

(** The world once a report has been added to [asked]. *)
Definition flagged (w : World) (name : string) (r : Report.t) : World :=
  {| reports := (reports w ++ [r])%list;
     calls := (calls w ++ [CallImportType name; CallResolve name])%list |}.

(** The world after [m] ran in [w]. *)
Definition after {A} (m : M A) (w : World) : World := (m w).2.

(** What the two listeners of [create] do with a node of the file, given
    the table and the flags: an import is classified by its source, a call
    by its first argument when it is a static require, nothing else is
    looked at. *)
Definition classifyNode `{Externals} (deps : Deps) (depsOptions : DepsOptions)
    (node : Node) : M unit :=
  match node with
  | ImportDeclaration _ value => reportIfMissing deps depsOptions node value
  | CallExpression value =>
      if isStaticRequire node then reportIfMissing deps depsOptions node value
      else mret ()
  | OtherNode => mret ()
  end.

(** The reports [classifyNode] makes for a node on its own. *)
Definition reports_for `{Externals} (deps : Deps) (depsOptions : DepsOptions)
    (node : Node) : list Report.t :=
  reports (after (classifyNode deps depsOptions node) start).

(** ** A concrete project, for the examples

    A repository at [/repo] with the workspace packages [a] (a manifest of
    its own), [broken] (a manifest that does not parse) and [locked] (a
    manifest that cannot be read), a directory [/empty] whose manifest
    lists nothing, and no manifest anywhere else. *)

Module Demo.

Definition root_manifest : Manifest :=
  {| pkg_dependencies := Some {[ "lodash" := "^4.0.0" ]};
     pkg_devDependencies := Some {[ "jest" := "^27" ]};
     pkg_optionalDependencies := Some {[ "fsevents" := "^2" ]};
     pkg_peerDependencies := Some {[ "react" := "^16" ]} |}.

Definition workspace_manifest : Manifest :=
  {| pkg_dependencies := Some (<[ "left-pad" := "1.3.0" ]> {[ "lodash" := "^3.0.0" ]});
     pkg_devDependencies := None;
     pkg_optionalDependencies := None;
     pkg_peerDependencies := None |}.

Definition bare_manifest : Manifest :=
  {| pkg_dependencies := None; pkg_devDependencies := None;
     pkg_optionalDependencies := None; pkg_peerDependencies := None |}.

Definition not_found (file : string) : JSError :=
  {| code := Some "ENOENT"; name := "Error"; instanceof_SyntaxError := false;
     message := "ENOENT: no such file or directory, open '" +:+ file +:+ "'" |}.

Definition unexpected_end : JSError :=
  {| code := None; name := "SyntaxError"; instanceof_SyntaxError := true;
     message := "Unexpected end of JSON input" |}.

Definition permission_denied (file : string) : JSError :=
  {| code := Some "EACCES"; name := "Error"; instanceof_SyntaxError := false;
     message := "EACCES: permission denied, open '" +:+ file +:+ "'" |}.

(** A glob matcher over path segments standing in for minimatch: a literal
    segment, [*] for one segment, [**] for any number of them. *)
Fixpoint glob (pattern file : list string) : bool :=
  match pattern with
  | [] => bool_decide (file = [])
  | p :: ps =>
      if bool_decide (p = "**") then
        (fix star (file : list string) : bool :=
           glob ps file || match file with [] => false | _ :: rest => star rest end) file
      else
        match file with
        | [] => false
        | s :: rest => (bool_decide (p = "*") || bool_decide (p = s)) && glob ps rest
        end
  end.

Definition externals : Externals := {|
  readPkgUp_sync cwd :=
    if String.prefix "/repo/" cwd then
      inr {| pkg := Some root_manifest; path := Some "/repo/package.json" |}
    else if String.prefix "/empty/" cwd then
      inr {| pkg := Some bare_manifest; path := Some "/empty/package.json" |}
    else inr {| pkg := None; path := None |};
  fs_readFileSync file :=
    if bool_decide (file = "/repo/package.json") then inr "root"
    else if bool_decide (file = "/repo/packages/a/package.json") then inr "workspace"
    else if bool_decide (file = "/repo/packages/broken/package.json") then inr "{"
    else if bool_decide (file = "/repo/packages/locked/package.json")
    then inl (permission_denied file)
    else inl (not_found file);
  JSON_parse content :=
    if bool_decide (content = "root") then inr root_manifest
    else if bool_decide (content = "workspace") then inr workspace_manifest
    else inl unexpected_end;
  path_resolve dir file := dir +:+ "/" +:+ file;
  path_join dir file := dir +:+ "/" +:+ file;
  process_cwd := "/repo";
  minimatch file pattern := glob (JSString.split "/" pattern) (JSString.split "/" file);
  resolve specifier :=
    if bool_decide (specifier = "ghost") then None
    else Some ("/repo/node_modules/" +:+ specifier);
  importType specifier :=
    if String.prefix "." specifier then "parent"
    else if String.prefix "/" specifier then "absolute"
    else if bool_decide (specifier = "fs") then "builtin"
    else "external";
  isStaticRequire node := match node with CallExpression _ => true | _ => false end;
  undefined_property_message := "Cannot read property 'dependencies' of undefined"
|}.

Definition root_deps : Deps :=
  {| dependencies := {[ "lodash" := "^4.0.0" ]};
     devDependencies := {[ "jest" := "^27" ]};
     optionalDependencies := {[ "fsevents" := "^2" ]};
     peerDependencies := {[ "react" := "^16" ]} |}.

Definition strict : DepsOptions :=
  {| allowDevDeps := false; allowOptDeps := false; allowPeerDeps := false |}.

Definition lenient : DepsOptions :=
  {| allowDevDeps := true; allowOptDeps := true; allowPeerDeps := true |}.

End Demo.

(** * Properties *)

(** ** Strings and package names *)

Example packageName_scoped : packageName "@scope/pkg/sub" = "@scope/pkg".
Proof. reflexivity. Qed.

Example packageName_plain : packageName "pkg/sub" = "pkg".
Proof. reflexivity. Qed.

Example packageName_bare_scope : packageName "@scope" = "@scope".
Proof. reflexivity. Qed.

Example missing_message_text :
  missingErrorMessage "left-pad" =
  "'left-pad' should be listed in the project's dependencies. Run 'npm i -S left-pad' to add it".
Proof. reflexivity. Qed.

(** ** The classifier *)

Section Classifier.
Context `{Externals}.

(** Past its guards, [reportIfMissing] is the decision of lines 108-135. *)
Lemma reportIfMissing_checkable deps opts node name w :
  checkable node name →
  reportIfMissing deps opts node name w =
  let pkg := packageName name in
  let isInDeps := JSObject.defined_at (dependencies deps) pkg in
  let isInDevDeps := JSObject.defined_at (devDependencies deps) pkg in
  let isInOptDeps := JSObject.defined_at (optionalDependencies deps) pkg in
  let isInPeerDeps := JSObject.defined_at (peerDependencies deps) pkg in
  if isInDeps || (allowDevDeps opts && isInDevDeps)
     || (allowPeerDeps opts && isInPeerDeps) || (allowOptDeps opts && isInOptDeps)
  then (Normal (), asked w name)
  else if isInDevDeps && negb (allowDevDeps opts)
  then (Normal (), flagged w name {| Report.loc := AtNode node; Report.message := devDepErrorMessage pkg |})
  else if isInOptDeps && negb (allowOptDeps opts)
  then (Normal (), flagged w name {| Report.loc := AtNode node; Report.message := optDepErrorMessage pkg |})
  else (Normal (), flagged w name {| Report.loc := AtNode node; Report.message := missingErrorMessage pkg |}).
Proof.
  intros (Hkind & Hext & Hres). unfold reportIfMissing.
  rewrite (bool_decide_eq_false_2 _ Hkind).
  unfold mbind, M_bind, called; simpl.
  rewrite (bool_decide_eq_true_2 _ Hext); simpl.
  rewrite Hres.
  unfold asked, flagged, context_report, mret, M_ret; simpl.
  rewrite <- !(assoc_L (++)); simpl.
  repeat match goal with |- context [if ?b then _ else _] => destruct b end;
    reflexivity.
Qed.

(** Through a guard, [reportIfMissing] returns at once: it has asked only
    the collaborators of the guards before the one that stopped it. *)
Lemma reportIfMissing_exempt deps opts node name w :
  exempt node name →
  reportIfMissing deps opts node name w =
  (Normal (), {| reports := reports w; calls := calls w ++ consulted node name |}).
Proof.
  intros Hex. unfold reportIfMissing, consulted.
  destruct (bool_decide (importKind_of node = Some "type")) eqn:Hkind.
  { unfold mret, M_ret. rewrite app_nil_r. by destruct w. }
  unfold mbind, M_bind, called; simpl.
  destruct (bool_decide (importType name = "external")) eqn:Hext; simpl.
  2:{ reflexivity. }
  destruct Hex as [Hex | [Hex | Hex]].
  - by apply bool_decide_eq_false in Hkind.
  - by apply bool_decide_eq_true in Hext.
  - rewrite Hex. unfold mret, M_ret. by rewrite <- (assoc_L (++)).
Qed.

(** A name that every object inherits is found in every section, whatever
    the manifest lists: the lookups of lines 112-115 go through the
    prototype chain. *)
Lemma inherited_name_is_found (section : JSObject.t) pkg :
  pkg ∈ JSObject.Object_prototype → JSObject.defined_at section pkg = true.
Proof.
  intros Hin. unfold JSObject.defined_at, JSObject.inherited.
  rewrite (bool_decide_eq_true_2 _ Hin). apply orb_true_r.
Qed.


(** Away from the inherited names, a name is found exactly when it is an
    own property. *)
Lemma found_iff_own (section : JSObject.t) pkg :
  pkg ∉ JSObject.Object_prototype →
  JSObject.defined_at section pkg = true ↔ is_Some (section !! pkg).
Proof.
  intros Hout. unfold JSObject.defined_at, JSObject.inherited, JSObject.own.
  rewrite (bool_decide_eq_false_2 _ Hout), orb_false_r.
  apply bool_decide_eq_true.
Qed.

(** So a specifier that passes the guards and whose package name is an
    inherited name is never reported, whatever the manifest lists. *)
Lemma inherited_name_is_never_reported deps opts node name w :
  checkable node name →
  packageName name ∈ JSObject.Object_prototype →
  reportIfMissing deps opts node name w = (Normal (), asked w name).
Proof.
  intros Hc Hin. rewrite reportIfMissing_checkable by done. simpl.
  by rewrite (inherited_name_is_found _ _ Hin).
Qed.

(** C1. A specifier that passes the guards and whose package name is found
    in [deps.dependencies] is not reported, whatever the three allow flags
    are and whatever the other three sections hold. *)
Theorem C1_runtime_dependency_allowed deps opts node name pkg w :
  checkable node name →
  packageName name = pkg →
  JSObject.defined_at (dependencies deps) pkg = true →
  reportIfMissing deps opts node name w = (Normal (), asked w name).
Proof.
  intros Hc <- Hin. rewrite reportIfMissing_checkable by done.
  simpl. by rewrite Hin.
Qed.

(** C2. A specifier that passes the guards and whose package name is found
    in [deps.devDependencies] and in no other section is let through
    exactly when [allowDevDeps] holds; when it does not, the one report made
    is the devDependencies message with the package name in it. *)
Theorem C2_dev_only_dependency deps opts node name pkg w :
  checkable node name →
  packageName name = pkg →
  JSObject.defined_at (devDependencies deps) pkg = true →
  JSObject.defined_at (dependencies deps) pkg = false →
  JSObject.defined_at (optionalDependencies deps) pkg = false →
  JSObject.defined_at (peerDependencies deps) pkg = false →
  (reportIfMissing deps opts node name w = (Normal (), asked w name)
     ↔ allowDevDeps opts = true) ∧
  (allowDevDeps opts = false →
   reportIfMissing deps opts node name w =
   (Normal (), flagged w name
      {| Report.loc := AtNode node;
         Report.message := "'" +:+ pkg +:+
                 "' should be listed in the project's dependencies, not devDependencies." |})).
Proof.
  intros Hc <- Hdev Hrun Hopt Hpeer. rewrite reportIfMissing_checkable by done.
  simpl. rewrite Hdev, Hrun, Hopt, Hpeer.
  destruct (allowDevDeps opts); simpl.
  - split; [done | discriminate].
  - rewrite !andb_false_r. simpl. split; [| done].
    split; [| discriminate].
    unfold asked, flagged. intros [= Heq].
    apply (f_equal length) in Heq. rewrite length_app in Heq. simpl in Heq. lia.
Qed.

(** C3. The same for [optionalDependencies] and [allowOptDeps], with the
    optionalDependencies message.  A package name found in
    [peerDependencies] only, with [allowPeerDeps] off, gets the message of a
    missing package: there is no message of its own for peer
    dependencies. *)
Theorem C3_optional_and_peer_only deps opts node name pkg w :
  checkable node name →
  packageName name = pkg →
  JSObject.defined_at (dependencies deps) pkg = false →
  JSObject.defined_at (devDependencies deps) pkg = false →
  (JSObject.defined_at (optionalDependencies deps) pkg = true →
   JSObject.defined_at (peerDependencies deps) pkg = false →
   (reportIfMissing deps opts node name w = (Normal (), asked w name)
      ↔ allowOptDeps opts = true) ∧
   (allowOptDeps opts = false →
    reportIfMissing deps opts node name w =
    (Normal (), flagged w name
       {| Report.loc := AtNode node;
          Report.message := "'" +:+ pkg +:+
                  "' should be listed in the project's dependencies, not optionalDependencies." |}))) ∧
  (JSObject.defined_at (peerDependencies deps) pkg = true →
   JSObject.defined_at (optionalDependencies deps) pkg = false →
   allowPeerDeps opts = false →
   reportIfMissing deps opts node name w =
   (Normal (), flagged w name
      {| Report.loc := AtNode node;
         Report.message := "'" +:+ pkg +:+
                 "' should be listed in the project's dependencies. Run 'npm i -S " +:+
                 pkg +:+ "' to add it" |})).
Proof.
  intros Hc <- Hrun Hdev. rewrite reportIfMissing_checkable by done.
  simpl. rewrite Hrun, Hdev. split.
  - intros Hopt Hpeer. rewrite Hopt, Hpeer.
    destruct (allowOptDeps opts); simpl; rewrite !andb_false_r; simpl.
    + split; [done | discriminate].
    + split; [| done]. split; [| discriminate].
      unfold asked, flagged. intros [= Heq].
      apply (f_equal length) in Heq. rewrite length_app in Heq. simpl in Heq. lia.
  - intros Hpeer Hopt Hoff. rewrite Hpeer, Hopt, Hoff.
    rewrite !andb_false_r. simpl. unfold missingErrorMessage.
    reflexivity.
Qed.

(** C5. A type import, a specifier that is not external, and a specifier
    that does not resolve are never reported, whatever the table and the
    allow flags are.  The guards run in that order and each returns at
    once: a type import asks no collaborator, a specifier that is not
    external is never resolved, and the table is not looked at. *)
Theorem C5_guards_skip deps opts node name w :
  exempt node name →
  reportIfMissing deps opts node name w =
  (Normal (), {| reports := reports w; calls := calls w ++ consulted node name |}) ∧
  (importKind_of node = Some "type" → consulted node name = []) ∧
  (importKind_of node ≠ Some "type" → importType name ≠ "external" →
   consulted node name = [CallImportType name]) ∧
  (importKind_of node ≠ Some "type" → importType name = "external" →
   consulted node name = [CallImportType name; CallResolve name]).
Proof.
  intros Hex. split; [by apply reportIfMissing_exempt |].
  unfold consulted. repeat split.
  - intros Hkind. by rewrite (bool_decide_eq_true_2 _ Hkind).
  - intros Hkind Hext.
    by rewrite (bool_decide_eq_false_2 _ Hkind), (bool_decide_eq_false_2 _ Hext).
  - intros Hkind Hext.
    by rewrite (bool_decide_eq_false_2 _ Hkind), (bool_decide_eq_true_2 _ Hext).
Qed.

End Classifier.

(** ** Package-name extraction *)

Section Segments.

Lemma split_not_nil sep s : JSString.split sep s ≠ [].
Proof.
  destruct s as [|c s]; simpl; [done |].
  case_decide; [done |]. by destruct (JSString.split sep s).
Qed.

(** A string without the separator is its own single segment. *)
Lemma split_free sep a :
  JSString.free_of sep a = true → JSString.split sep a = [a].
Proof.
  induction a as [|c a IH]; simpl; [done |].
  intros [Hc Ha]%andb_true_iff. apply negb_true_iff, bool_decide_eq_false in Hc.
  rewrite decide_False by done. by rewrite IH.
Qed.

(** The first separator ends the first segment. *)
Lemma split_first sep a rest :
  JSString.free_of sep a = true →
  JSString.split sep (a +:+ String sep rest) = a :: JSString.split sep rest.
Proof.
  induction a as [|c a IH]; simpl.
  - intros _. by rewrite decide_True.
  - intros [Hc Ha]%andb_true_iff. apply negb_true_iff, bool_decide_eq_false in Hc.
    rewrite decide_False by done. by rewrite IH.
Qed.

(** The segments hold no separator, and joining them gives the string
    back: [split] cuts at every separator and nowhere else. *)
Lemma split_segments_free sep s :
  Forall (λ seg, JSString.free_of sep seg = true) (JSString.split sep s).
Proof.
  induction s as [|c s IH]; simpl.
  - by repeat constructor.
  - case_decide as Hc.
    + by constructor.
    + destruct (JSString.split sep s) as [|seg segs]; inversion IH; subst.
      * repeat constructor. simpl. by rewrite bool_decide_eq_false_2.
      * constructor; [| done]. simpl. by rewrite bool_decide_eq_false_2.
Qed.

Lemma join_split sep s :
  JSString.join (String sep EmptyString) (JSString.split sep s) = s.
Proof.
  induction s as [|c s IH]; simpl; [done |].
  case_decide as Hc.
  - subst c. pose proof (split_not_nil sep s) as Hne.
    destruct (JSString.split sep s) as [|seg segs] eqn:Hs; [done |].
    simpl. by rewrite <- IH.
  - destruct (JSString.split sep s) as [|seg segs] eqn:Hs.
    + by destruct (split_not_nil sep s).
    + rewrite <- IH. by destruct segs.
Qed.

Lemma packageName_scoped_path scope pkg rest :
  JSString.free_of "/" scope = true →
  JSString.free_of "/" pkg = true →
  JSString.char0 scope = Some "@"%char →
  packageName (scope +:+ "/" +:+ pkg +:+ "/" +:+ rest) = scope +:+ "/" +:+ pkg.
Proof.
  intros Hscope Hpkg Hat. unfold packageName.
  change ("/" +:+ pkg +:+ "/" +:+ rest) with (String "/" (pkg +:+ String "/" rest)).
  rewrite !split_first by done. simpl.
  by rewrite (bool_decide_eq_true_2 _ Hat).
Qed.

Lemma packageName_scoped_root scope pkg :
  JSString.free_of "/" scope = true →
  JSString.free_of "/" pkg = true →
  JSString.char0 scope = Some "@"%char →
  packageName (scope +:+ "/" +:+ pkg) = scope +:+ "/" +:+ pkg.
Proof.
  intros Hscope Hpkg Hat. unfold packageName.
  change ("/" +:+ pkg) with (String "/" pkg).
  rewrite split_first, (split_free _ pkg) by done. simpl.
  by rewrite (bool_decide_eq_true_2 _ Hat).
Qed.

Lemma packageName_plain_path pkg rest :
  JSString.free_of "/" pkg = true →
  JSString.char0 pkg ≠ Some "@"%char →
  packageName (pkg +:+ "/" +:+ rest) = pkg.
Proof.
  intros Hpkg Hat. unfold packageName.
  change ("/" +:+ rest) with (String "/" rest).
  rewrite split_first by done. simpl.
  by rewrite (bool_decide_eq_false_2 _ Hat).
Qed.

Lemma packageName_plain_root pkg :
  JSString.free_of "/" pkg = true →
  packageName pkg = pkg.
Proof.
  intros Hpkg. unfold packageName. rewrite split_free by done. simpl.
  by case_bool_decide.
Qed.

End Segments.

Section PathInvariance.
Context `{Externals}.

(** Two specifiers of the same package that the guards treat alike get the
    same completion and the same reports. *)
Lemma reportIfMissing_same_package deps opts node name name' w :
  packageName name = packageName name' →
  (importType name = "external" ↔ importType name' = "external") →
  falsy (resolve name) = falsy (resolve name') →
  (reportIfMissing deps opts node name w).1 = (reportIfMissing deps opts node name' w).1 ∧
  reports (after (reportIfMissing deps opts node name) w)
  = reports (after (reportIfMissing deps opts node name') w).
Proof.
  intros Hpkg Hext Hres. unfold after.
  destruct (decide (importKind_of node = Some "type")) as [Hkind | Hkind].
  { rewrite !reportIfMissing_exempt by (by left). done. }
  destruct (decide (importType name = "external")) as [Hx | Hx].
  2:{ rewrite !reportIfMissing_exempt by (right; left; tauto). done. }
  destruct (falsy (resolve name)) eqn:Hf.
  { rewrite !reportIfMissing_exempt by (right; right; congruence). done. }
  assert (checkable node name) by done.
  assert (checkable node name') by (repeat split; [done | tauto | congruence]).
  rewrite !reportIfMissing_checkable by done. simpl. rewrite <- Hpkg.
  repeat match goal with |- context [if ?b then _ else _] => destruct b end; done.
Qed.

(** C4. The package name of a specifier is its first two segments joined by
    a slash when the first segment begins with [@], and its first segment
    otherwise.  Hence a path below a scoped package gets the completion and
    reports of the package itself, and so does a path below a plain
    package, when the guards treat the two specifiers alike. *)
Theorem C4_package_name_ignores_deeper_segments :
  (∀ name,
     let segments := JSString.split "/" name in
     (JSString.char0 (hd EmptyString segments) = Some "@"%char →
      packageName name = JSString.join "/" (take 2 segments)) ∧
     (JSString.char0 (hd EmptyString segments) ≠ Some "@"%char →
      packageName name = hd EmptyString segments)) ∧
  (∀ scope pkg deep deps opts node w,
     JSString.free_of "/" scope = true →
     JSString.free_of "/" pkg = true →
     JSString.char0 scope = Some "@"%char →
     let root := scope +:+ "/" +:+ pkg in
     let below := scope +:+ "/" +:+ pkg +:+ "/" +:+ deep in
     (importType below = "external" ↔ importType root = "external") →
     falsy (resolve below) = falsy (resolve root) →
     packageName below = root ∧ packageName root = root ∧
     (reportIfMissing deps opts node below w).1 = (reportIfMissing deps opts node root w).1 ∧
     reports (after (reportIfMissing deps opts node below) w)
     = reports (after (reportIfMissing deps opts node root) w)) ∧
  (∀ pkg sub deps opts node w,
     JSString.free_of "/" pkg = true →
     JSString.char0 pkg ≠ Some "@"%char →
     let below := pkg +:+ "/" +:+ sub in
     (importType below = "external" ↔ importType pkg = "external") →
     falsy (resolve below) = falsy (resolve pkg) →
     packageName below = pkg ∧ packageName pkg = pkg ∧
     (reportIfMissing deps opts node below w).1 = (reportIfMissing deps opts node pkg w).1 ∧
     reports (after (reportIfMissing deps opts node below) w)
     = reports (after (reportIfMissing deps opts node pkg) w)).
Proof.
  split; [| split].
  - intros name segments. unfold packageName. fold segments.
    split; intros Hat.
    + by rewrite (bool_decide_eq_true_2 _ Hat).
    + by rewrite (bool_decide_eq_false_2 _ Hat).
  - intros scope pkg deep deps opts node w Hscope Hpkg Hat root below Hext Hres.
    pose proof (packageName_scoped_path scope pkg deep Hscope Hpkg Hat) as Hbelow.
    pose proof (packageName_scoped_root scope pkg Hscope Hpkg Hat) as Hroot.
    split; [done |]. split; [done |].
    apply reportIfMissing_same_package; [| done | done].
    unfold below, root. by rewrite Hbelow, Hroot.
  - intros pkg sub deps opts node w Hpkg Hat below Hext Hres.
    pose proof (packageName_plain_path pkg sub Hpkg Hat) as Hbelow.
    pose proof (packageName_plain_root pkg Hpkg) as Hroot.
    split; [done |]. split; [done |].
    apply reportIfMissing_same_package; [| done | done].
    unfold below. by rewrite Hbelow, Hroot.
Qed.

End PathInvariance.

(** ** Merging sections *)

Section Assign.

(** [Object.assign] in closed form: the source wins on every key, except
    that its [__proto__] is lost on a target without an own [__proto__]. *)
Lemma assign_union (target source : JSObject.t) :
  JSObject.assign target source =
  (if JSObject.own target "__proto__" then source else delete "__proto__" source) ∪ target.
Proof.
  unfold JSObject.assign.
  apply (map_fold_weak_ind
    (λ r m, r = (if JSObject.own target "__proto__" then m
                 else delete "__proto__" m) ∪ target)).
  - destruct (JSObject.own target "__proto__").
    + by rewrite (left_id_L ∅ (∪)).
    + by rewrite delete_empty, (left_id_L ∅ (∪)).
  - intros k v m r Hfresh ->. unfold JSObject.set.
    destruct (JSObject.own target "__proto__") eqn:Hown.
    + assert (JSObject.own (m ∪ target) "__proto__" = true) as Hown'.
      { unfold JSObject.own in *. apply bool_decide_eq_true in Hown.
        apply bool_decide_eq_true. destruct Hown as [x Hx].
        destruct (m !! "__proto__") as [y|] eqn:Hy.
        - exists y. by apply lookup_union_Some_l.
        - exists x. by rewrite lookup_union_r. }
      case_bool_decide as Hk; simpl.
      * subst k. rewrite Hown'. simpl. by rewrite insert_union_l.
      * by rewrite insert_union_l.
    + unfold JSObject.own in Hown. apply bool_decide_eq_false in Hown.
      case_bool_decide as Hk; simpl.
      * subst k.
        assert (JSObject.own (delete "__proto__" m ∪ target) "__proto__" = false) as ->.
        { unfold JSObject.own. apply bool_decide_eq_false. intros [x Hx].
          apply lookup_union_Some_raw in Hx as [Hx | [_ Hx]].
          - by rewrite lookup_delete_eq in Hx.
          - apply Hown. by exists x. }
        simpl. by rewrite delete_insert_eq.
      * rewrite insert_union_l. by rewrite delete_insert_ne.
Qed.

(** A key of the target stays. *)
Lemma assign_keeps_target (target source : JSObject.t) k :
  is_Some (target !! k) → is_Some (JSObject.assign target source !! k).
Proof.
  intros [x Hx]. rewrite assign_union.
  match goal with |- is_Some ((?m ∪ _) !! _) => destruct (m !! k) as [y|] eqn:Hy end.
  - exists y. by apply lookup_union_Some_l.
  - exists x. by rewrite lookup_union_r.
Qed.


(** A key of the source other than [__proto__] becomes a key of the
    target, with the value of the source. *)
Lemma assign_takes_source (target source : JSObject.t) k v :
  k ≠ "__proto__" → source !! k = Some v →
  JSObject.assign target source !! k = Some v.
Proof.
  intros Hk Hs. rewrite assign_union. apply lookup_union_Some_l.
  destruct (JSObject.own target "__proto__"); [done |].
  by rewrite lookup_delete_ne.
Qed.

(** A key that only the target has keeps its value. *)
Lemma assign_untouched (target source : JSObject.t) k :
  source !! k = None → JSObject.assign target source !! k = target !! k.
Proof.
  intros Hs. rewrite assign_union. apply lookup_union_r.
  destruct (JSObject.own target "__proto__"); [done |].
  destruct (decide (k = "__proto__")) as [-> | Hk].
  - apply lookup_delete_eq.
  - by rewrite lookup_delete_ne.
Qed.


End Assign.

(** ** The manifest aggregator *)

Section Aggregator.
Context `{Externals}.

Local Arguments mergeDir : simpl never.

Local Ltac run :=
  repeat progress
    (unfold mbind, M_bind, mret, M_ret, called, of_result, throw, extractDepFields,
       context_report, try_catch in *; simpl in *).

Lemma section_of_assignDeps c fromDeps toDeps :
  section_of c (assignDeps fromDeps toDeps)
  = JSObject.assign (section_of c fromDeps) (section_of c toDeps).
Proof. by destruct c. Qed.

Lemma reduce_app {A B} (f : B → A → M B) l1 l2 acc w :
  reduce f (l1 ++ l2) acc w = (acc' ← reduce f l1 acc; reduce f l2 acc') w.
Proof.
  revert acc w. induction l1 as [|x l1 IH]; intros acc w; simpl; [done |].
  run. destruct (f acc x w) as [[acc' | e] w']; [| done]. apply IH.
Qed.

(** A directory whose manifest was already consulted is passed over. *)
Lemma mergeDir_seen files allDeps dir w :
  Some (path_resolve dir "package.json") ∈ files →
  mergeDir (files, allDeps) dir w = (Normal (files, allDeps), w).
Proof. intros Hin. unfold mergeDir. by rewrite (bool_decide_eq_true_2 _ Hin). Qed.

(** A directory with a new, readable manifest is merged. *)
Lemma mergeDir_fresh files allDeps dir manifest w :
  let pkgFile := path_resolve dir "package.json" in
  Some pkgFile ∉ files →
  holds pkgFile manifest →
  mergeDir (files, allDeps) dir w =
  (Normal (files ++ [Some pkgFile], assignDeps allDeps (depFields manifest)),
   {| reports := reports w; calls := calls w ++ [CallReadFileSync pkgFile] |}).
Proof.
  intros pkgFile Hout (content & Hread & Hparse). unfold mergeDir. fold pkgFile.
  rewrite (bool_decide_eq_false_2 _ Hout). run. rewrite Hread. simpl.
  by rewrite Hparse.
Qed.

(** Whatever happens, [mergeDir] reports nothing, and reads at most the
    manifest of its directory, and only when it was not consulted yet. *)
Lemma mergeDir_effects files allDeps dir w :
  let pkgFile := path_resolve dir "package.json" in
  let w' := after (mergeDir (files, allDeps) dir) w in
  reports w' = reports w ∧
  calls w' = calls w ++ (if bool_decide (Some pkgFile ∈ files) then []
                         else [CallReadFileSync pkgFile]).
Proof.
  intros pkgFile. unfold after, mergeDir. fold pkgFile.
  case_bool_decide; simpl; [by rewrite app_nil_r |].
  run. destruct (fs_readFileSync pkgFile) as [e | content]; simpl; [done |].
  by destruct (JSON_parse content).
Qed.

(** When [mergeDir] returns, the manifest of its directory counts as
    consulted, and so does every file that did before. *)
Lemma mergeDir_files files allDeps dir files' allDeps' w w' :
  mergeDir (files, allDeps) dir w = (Normal (files', allDeps'), w') →
  files ⊆ files' ∧ Some (path_resolve dir "package.json") ∈ files'.
Proof.
  unfold mergeDir. case_bool_decide as Hin; simpl.
  - run. by intros [= <- <- <-].
  - run. destruct (fs_readFileSync _) as [e | content]; simpl; [done |].
    destruct (JSON_parse content); simpl; [done |].
    intros [= <- <- <-]. set_solver.
Qed.

Lemma reduce_mergeDir_files dirs files allDeps files' allDeps' w w' :
  reduce mergeDir dirs (files, allDeps) w = (Normal (files', allDeps'), w') →
  files ⊆ files' ∧ ∀ dir, dir ∈ dirs → Some (path_resolve dir "package.json") ∈ files'.
Proof.
  revert files allDeps w. induction dirs as [|d dirs IHdirs]; intros files allDeps w; simpl.
  - run. intros [= <- <- <-]. split; [done |]. intros dir Hin. by apply elem_of_nil in Hin.
  - run. destruct (mergeDir (files, allDeps) d w) as [[[files1 deps1] | e] w1] eqn:Hstep;
      [| done].
    intros Hrest. apply mergeDir_files in Hstep as [Hsub Hd].
    destruct (IHdirs _ _ _ Hrest) as [Hsub' Hall]. clear IHdirs. split; [set_solver |].
    intros dir [-> | Hin]%elem_of_cons; [set_solver | by apply Hall].
Qed.

(** Dropping a directory whose manifest has been consulted by then changes
    nothing: neither the table, nor the effects, nor an exception. *)
Lemma reduce_mergeDir_skip l1 dir l2 files allDeps w :
  (Some (path_resolve dir "package.json") ∈ files ∨
   ∃ earlier, earlier ∈ l1 ∧
     path_resolve earlier "package.json" = path_resolve dir "package.json") →
  reduce mergeDir (l1 ++ dir :: l2) (files, allDeps) w
  = reduce mergeDir (l1 ++ l2) (files, allDeps) w.
Proof.
  intros Hseen. rewrite !reduce_app. run.
  destruct (reduce mergeDir l1 (files, allDeps) w) as [[[files1 deps1] | e] w1] eqn:Hl1;
    [| done].
  apply reduce_mergeDir_files in Hl1 as [Hsub Hall].
  rewrite mergeDir_seen; [done |].
  destruct Hseen as [Hin | (earlier & Hin & <-)]; [set_solver | by apply Hall].
Qed.

(** The effects of the whole [reduce]: no report, and the reads are an
    initial part of the fresh files, each at most once. *)
Lemma reduce_mergeDir_effects dirs files allDeps w :
  let w' := after (reduce mergeDir dirs (files, allDeps)) w in
  reports w' = reports w ∧
  ∃ reads, calls w' = calls w ++ (CallReadFileSync <$> reads) ∧
           reads `prefix_of` fresh_files files dirs.
Proof.
  revert files allDeps w. induction dirs as [|d dirs IH]; intros files allDeps w; simpl.
  - split; [done |]. exists []. by rewrite app_nil_r.
  - unfold after in *. run.
    pose proof (mergeDir_effects files allDeps d w) as [Hrep Hcalls].
    unfold after in Hrep, Hcalls.
    destruct (mergeDir (files, allDeps) d w) as [[[files1 deps1] | e] w1] eqn:Hstep;
      simpl in *.
    + specialize (IH files1 deps1 w1) as [Hrep' (reads & Hcalls' & Hpre)].
      split; [congruence |].
      unfold mergeDir in Hstep. case_bool_decide as Hin; simpl in *.
      * run. injection Hstep as <- <- <-. by exists reads.
      * run. destruct (fs_readFileSync _) as [e | content]; simpl in *; [done |].
        destruct (JSON_parse content); simpl in *; [done |].
        injection Hstep as <- <- <-.
        exists (path_resolve d "package.json" :: reads). split.
        -- rewrite Hcalls'. simpl. by rewrite <- (assoc_L (++)).
        -- by apply prefix_cons.
    + split; [done |]. case_bool_decide as Hin.
      * exists []. split; [by rewrite Hcalls | apply prefix_nil].
      * exists [path_resolve d "package.json"]. split; [done |].
        apply prefix_cons, prefix_nil.
Qed.

(** The fresh files are pairwise different and none was consulted before. *)
Lemma fresh_files_NoDup dirs files :
  NoDup (fresh_files files dirs) ∧
  ∀ file, file ∈ fresh_files files dirs → Some file ∉ files.
Proof.
  revert files. induction dirs as [|d dirs IHdirs]; intros files; simpl.
  - split; [constructor |]. intros file Hin. by apply elem_of_nil in Hin.
  - case_bool_decide as Hin; [apply IHdirs |].
    destruct (IHdirs (files ++ [Some (path_resolve d "package.json")])) as [Hnd Hout].
    clear IHdirs. split.
    + constructor; [| done]. intros Hd. apply Hout in Hd.
      apply Hd, elem_of_app. right. apply list_elem_of_singleton. done.
    + intros file [-> | Hfile]%elem_of_cons; [done |].
      apply Hout in Hfile. intros Hold. apply Hfile, elem_of_app. by left.
Qed.

(** When every fresh file holds a manifest, the [reduce] is the left fold
    of [assignDeps] over those manifests, in the order of the directories. *)
Lemma reduce_mergeDir_fold dirs files init manifests w :
  Forall2 holds (fresh_files files dirs) manifests →
  reduce mergeDir dirs (files, init) w =
  (Normal (files ++ (Some <$> fresh_files files dirs),
           fold_left assignDeps (depFields <$> manifests) init),
   {| reports := reports w;
      calls := calls w ++ (CallReadFileSync <$> fresh_files files dirs) |}).
Proof.
  revert files init manifests w.
  induction dirs as [|d dirs IH]; intros files init manifests w; simpl.
  - intros ->%Forall2_nil_inv_l. run. rewrite !app_nil_r. by destruct w.
  - case_bool_decide as Hin.
    + intros Hall. run. rewrite mergeDir_seen by done. by apply IH.
    + intros (m & rest & Hm & Hrest & ->)%Forall2_cons_inv_l. run.
      rewrite (mergeDir_fresh _ _ _ m) by done.
      rewrite (IH _ _ rest) by done. simpl.
      by rewrite <- !(assoc_L (++)).
Qed.

(** [mergedDependencies] case by case. *)
Lemma mergedDependencies_eq context packageDir w :
  let w0 := {| reports := reports w;
               calls := calls w ++ [CallReadPkgUp (getFilename context)] |} in
  mergedDependencies context packageDir w =
  match readPkgUp_sync (getFilename context) with
  | inl e => (Throw e, w0)
  | inr closest =>
      match pkg closest with
      | None => (Throw (TypeError undefined_property_message), w0)
      | Some manifest =>
          match reduce mergeDir (packageDirs packageDir)
                  ([path closest], depFields manifest) w0 with
          | (Normal (_, deps), w') => (Normal deps, w')
          | (Throw e, w') => (Throw e, w')
          end
      end
  end.
Proof.
  intros w0. unfold mergedDependencies. run. fold w0.
  destruct (readPkgUp_sync (getFilename context)) as [e | closest]; simpl; [done |].
  destruct (pkg closest) as [manifest |]; simpl; [| done].
  by destruct (reduce mergeDir _ _ w0) as [[[files deps] | e] w'].
Qed.

(** Building the table reports nothing, reads each fresh file at most once
    and never the manifest the locator has found. *)
Lemma mergedDependencies_effects context packageDir w :
  let w' := after (mergedDependencies context packageDir) w in
  reports w' = reports w ∧
  ∃ reads,
    calls w' = calls w ++ CallReadPkgUp (getFilename context) :: (CallReadFileSync <$> reads) ∧
    NoDup reads ∧
    ∀ closest file, readPkgUp_sync (getFilename context) = inr closest →
                    path closest = Some file → file ∉ reads.
Proof.
  unfold after. rewrite mergedDependencies_eq.
  destruct (readPkgUp_sync (getFilename context)) as [e | closest] eqn:Hup; simpl.
  { split; [done |]. exists []. repeat split; [constructor | set_solver]. }
  destruct (pkg closest) as [manifest |]; simpl.
  2:{ split; [done |]. exists []. repeat split; [constructor | set_solver]. }
  match goal with |- context [reduce mergeDir ?dirs (?files, ?init) ?w0] =>
    pose proof (reduce_mergeDir_effects dirs files init w0) as [Hrep (reads & Hcalls & Hpre)];
    pose proof (fresh_files_NoDup dirs files) as [Hnd Hout];
    unfold after in Hrep, Hcalls;
    destruct (reduce mergeDir dirs (files, init) w0) as [[[files' deps] | e] w'] eqn:Hred
  end; simpl in *.
  all: split; [done |]; exists reads; split;
    [ by rewrite Hcalls, <- (assoc_L (++)) |].
  all: destruct Hpre as [rest Hrest]; rewrite Hrest in Hnd, Hout.
  all: split; [ by apply NoDup_app in Hnd as [? _] |].
  all: intros ? file [= <-] Hpath Hin; apply (Hout file);
    [ apply elem_of_app; by left
    | rewrite Hpath; apply list_elem_of_singleton; done ].
Qed.

(** [getDependencies] never throws: the [catch] block reports and the
    function returns [undefined]. *)
Lemma getDependencies_eq context packageDir w :
  getDependencies context packageDir w =
  match mergedDependencies context packageDir w with
  | (Normal deps, w') =>
      if existsb hasKeys [dependencies deps; devDependencies deps;
                          optionalDependencies deps; peerDependencies deps]
      then (Normal (Some deps), w')
      else (Normal None, w')
  | (Throw e, w') =>
      (Normal None,
       {| reports := reports w' ++
            [ {| Report.loc := AtPosition 0 0;
                 Report.message := if bool_decide (code e = Some "ENOENT")
                         then "The package.json file could not be found."
                         else if bool_decide (name e = "JSONError") || instanceof_SyntaxError e
                         then "The package.json file could not be parsed: " +:+ message e
                         else message e |} ];
          calls := calls w' |})
  end.
Proof.
  unfold getDependencies, getDependencies_try, getDependencies_catch. run.
  destruct (mergedDependencies context packageDir w) as [[deps | e] w']; simpl.
  - by destruct (hasKeys _ || _).
  - case_bool_decide; simpl; [done |]. by destruct (_ || _).
Qed.

Lemma hasKeys_false (obj : JSObject.t) : hasKeys obj = false ↔ obj = ∅.
Proof.
  unfold hasKeys, JSObject.keys. rewrite bool_decide_eq_false, length_fmap.
  rewrite <- map_to_list_empty_iff.
  destruct (map_to_list obj); simpl; split; try done; lia.
Qed.

End Aggregator.

Section Merging.
Context `{Externals}.









End Merging.

Section Consultation.
Context `{Externals}.

(** The table and the effects depend on the [packageDir] option only
    through the [reduce]. *)
Lemma getDependencies_by_reduce context packageDir packageDir' w :
  (∀ files init w0,
     (∀ closest, readPkgUp_sync (getFilename context) = inr closest →
                 files = [path closest]) →
     reduce mergeDir (packageDirs packageDir) (files, init) w0
     = reduce mergeDir (packageDirs packageDir') (files, init) w0) →
  getDependencies context packageDir w = getDependencies context packageDir' w.
Proof.
  intros Hsame. rewrite !getDependencies_eq, !mergedDependencies_eq. simpl.
  destruct (readPkgUp_sync (getFilename context)) as [e | closest] eqn:Hup; [done |].
  destruct (pkg closest); [| done].
  rewrite Hsame; [done |]. by intros ? [= <-].
Qed.

(** C7. A manifest file is read at most once in a run, and the manifest the
    locator has found is not read again: a configured directory that
    resolves to the file of an earlier one, or to the nearest manifest,
    changes neither the table, nor what is read and reported, nor raises an
    error. *)
Theorem C7_each_manifest_once :
  (∀ context l1 dir l2 again l3 w,
     path_resolve again "package.json" = path_resolve dir "package.json" →
     getDependencies context (ManyDirs (l1 ++ dir :: l2 ++ again :: l3)) w
     = getDependencies context (ManyDirs (l1 ++ dir :: l2 ++ l3)) w) ∧
  (∀ context closest l1 dir l2 w,
     readPkgUp_sync (getFilename context) = inr closest →
     path closest = Some (path_resolve dir "package.json") →
     getDependencies context (ManyDirs (l1 ++ dir :: l2)) w
     = getDependencies context (ManyDirs (l1 ++ l2)) w ∧
     getDependencies context (OneDir dir) w = getDependencies context NoPackageDir w) ∧
  (∀ context packageDir w,
     ∃ reads,
       calls (after (getDependencies context packageDir) w)
       = calls w ++ CallReadPkgUp (getFilename context) :: (CallReadFileSync <$> reads) ∧
       NoDup reads ∧
       ∀ closest file, readPkgUp_sync (getFilename context) = inr closest →
                       path closest = Some file → file ∉ reads).
Proof.
  split; [| split].
  - intros context l1 dir l2 again l3 w Hsame.
    apply getDependencies_by_reduce. intros files init w0 _. simpl.
    replace (l1 ++ dir :: l2 ++ again :: l3) with ((l1 ++ dir :: l2) ++ again :: l3)
      by (by rewrite <- (assoc_L (++))).
    replace (l1 ++ dir :: l2 ++ l3) with ((l1 ++ dir :: l2) ++ l3)
      by (by rewrite <- (assoc_L (++))).
    apply reduce_mergeDir_skip. right. exists dir. split; [| done].
    apply elem_of_app. right. by left.
  - intros context closest l1 dir l2 w Hup Hpath. split.
    + apply getDependencies_by_reduce. intros files init w0 Hfiles. simpl.
      apply reduce_mergeDir_skip. left.
      rewrite (Hfiles closest Hup), Hpath. by left.
    + apply getDependencies_by_reduce. intros files init w0 Hfiles. simpl.
      case_bool_decide; [done |].
      apply (reduce_mergeDir_skip [] dir []). left.
      rewrite (Hfiles closest Hup), Hpath. by left.
  - intros context packageDir w.
    pose proof (mergedDependencies_effects context packageDir w)
      as [_ (reads & Hcalls & Hnd & Hout)].
    exists reads. split; [| done].
    unfold after in *. rewrite getDependencies_eq.
    destruct (mergedDependencies context packageDir w) as [[deps | e] w']; simpl in *.
    + by destruct (hasKeys _ || _).
    + done.
Qed.

(** The three diagnostics of the [catch] block: one report at line 0,
    column 0, whose text depends on the error alone. *)
Lemma getDependencies_failure context packageDir w e w' :
  mergedDependencies context packageDir w = (Throw e, w') →
  ∃ r, getDependencies context packageDir w
       = (Normal None, {| reports := reports w ++ [r]; calls := calls w' |}) ∧
       Report.loc r = AtPosition 0 0 ∧
       (code e = Some "ENOENT" → Report.message r = "The package.json file could not be found.") ∧
       (code e ≠ Some "ENOENT" →
        name e = "JSONError" ∨ instanceof_SyntaxError e = true →
        Report.message r = "The package.json file could not be parsed: " +:+ message e) ∧
       (code e ≠ Some "ENOENT" →
        name e ≠ "JSONError" → instanceof_SyntaxError e = false →
        Report.message r = message e).
Proof.
  intros Hthrow.
  pose proof (mergedDependencies_effects context packageDir w) as [Hrep _].
  unfold after in Hrep. rewrite getDependencies_eq, Hthrow. rewrite Hthrow in Hrep.
  simpl in Hrep. rewrite Hrep. eexists. split; [reflexivity |]. simpl.
  split; [done |]. repeat split.
  - intros Hcode. by rewrite (bool_decide_eq_true_2 _ Hcode).
  - intros Hcode Hparse. rewrite (bool_decide_eq_false_2 _ Hcode).
    destruct Hparse as [Hname | Hsyn].
    + by rewrite (bool_decide_eq_true_2 _ Hname).
    + by rewrite Hsyn, orb_true_r.
  - intros Hcode Hname Hsyn.
    by rewrite (bool_decide_eq_false_2 _ Hcode), (bool_decide_eq_false_2 _ Hname), Hsyn.
Qed.

(** A manifest of a configured directory that does not exist, does not
    parse, or cannot be read for another reason. *)
Lemma getDependencies_configured_failure context dir closest nearest e w :
  let pkgFile := path_resolve dir "package.json" in
  readPkgUp_sync (getFilename context) = inr closest →
  pkg closest = Some nearest →
  path closest ≠ Some pkgFile →
  (fs_readFileSync pkgFile = inl e ∨
   ∃ content, fs_readFileSync pkgFile = inr content ∧ JSON_parse content = inl e) →
  mergedDependencies context (ManyDirs [dir]) w
  = (Throw e, {| reports := reports w;
                 calls := calls w ++ [CallReadPkgUp (getFilename context);
                                      CallReadFileSync pkgFile] |}).
Proof.
  intros pkgFile Hup Hpkg Hpath Hfail.
  rewrite mergedDependencies_eq, Hup, Hpkg. simpl.
  unfold mbind, M_bind, mergeDir. fold pkgFile.
  rewrite bool_decide_eq_false_2.
  2:{ intros Hin%list_elem_of_singleton. by apply Hpath. }
  unfold mbind, M_bind, called, of_result, throw, mret, M_ret; simpl.
  rewrite <- (assoc_L (++)). simpl.
  destruct Hfail as [-> | (content & -> & ->)]; done.
Qed.

(** C8 at the input where it fails.  When no manifest lies above the file,
    the locator returns an object without [pkg]; [extractDepFields] reads a
    property of [undefined], and the [catch] block takes its last branch:
    the one report made carries the text of the engine's TypeError, not the
    text for a manifest that could not be found. *)
Theorem C8_walk_failure_is_reported_as_type_error context packageDir closest w :
  readPkgUp_sync (getFilename context) = inr closest →
  pkg closest = None →
  getDependencies context packageDir w =
  (Normal None,
   {| reports := reports w ++ [ {| Report.loc := AtPosition 0 0;
                                   Report.message := undefined_property_message |} ];
      calls := calls w ++ [CallReadPkgUp (getFilename context)] |}).
Proof.
  intros Hup Hpkg. by rewrite getDependencies_eq, mergedDependencies_eq, Hup, Hpkg.
Qed.

Lemma traverse_no_listeners nodes w :
  traverse {| on_ImportDeclaration := None; on_CallExpression := None |} nodes w
  = (Normal (), w).
Proof.
  revert w. induction nodes as [|node nodes IH]; intros w; simpl; [done |].
  unfold mbind, M_bind. by destruct node; simpl; rewrite IH.
Qed.

(** C9. When [getDependencies] returns no table, [create] registers no
    listener: the traversal of the file asks no collaborator and reports
    nothing beyond what building the table did.  That happens exactly when
    building the table threw or when none of the four merged sections has a
    key.  In the second case nothing at all is reported; in the first,
    exactly one report is made, at line 0, column 0. *)
Theorem C9_no_table_no_checking context nodes w :
  let packageDir := opt_packageDir (default no_options (options0 context)) in
  (∃ table w1, getDependencies context packageDir w = (Normal table, w1) ∧
     (table = None ↔
      match mergedDependencies context packageDir w with
      | (Normal deps, _) => ∀ c, section_of c deps = ∅
      | (Throw _, _) => True
      end)) ∧
  (∀ w1, getDependencies context packageDir w = (Normal None, w1) →
     lint context nodes w = (Normal (), w1) ∧
     match mergedDependencies context packageDir w with
     | (Normal deps, _) => reports w1 = reports w
     | (Throw _, _) => ∃ r, reports w1 = reports w ++ [r] ∧ Report.loc r = AtPosition 0 0
     end).
Proof.
  intros packageDir. split.
  - rewrite getDependencies_eq.
    destruct (mergedDependencies context packageDir w) as [[deps | e] w'] eqn:Hm.
    2:{ eexists _, _. split; [reflexivity | done]. }
    destruct (existsb hasKeys _) eqn:Hkeys.
    + eexists _, _. split; [reflexivity |]. split; [done |]. intros Hempty.
      pose proof (Hempty Runtime) as E1. pose proof (Hempty Development) as E2.
      pose proof (Hempty Optional) as E3. pose proof (Hempty Peer) as E4.
      simpl in E1, E2, E3, E4. rewrite E1, E2, E3, E4 in Hkeys.
      by vm_compute in Hkeys.
    + eexists _, _. split; [reflexivity |]. split; [| done]. intros _ c.
      simpl in Hkeys. rewrite !orb_false_iff in Hkeys.
      destruct Hkeys as (? & ? & ? & ? & _).
      destruct c; by apply hasKeys_false.
  - intros w1 Hnone. split.
    + unfold lint, create. fold packageDir. unfold mbind at 1. unfold M_bind.
      unfold mbind at 1. unfold M_bind. rewrite Hnone. simpl.
      unfold mret, M_ret. apply traverse_no_listeners.
    + pose proof (mergedDependencies_effects context packageDir w) as [Hrep _].
      unfold after in Hrep. rewrite getDependencies_eq in Hnone.
      destruct (mergedDependencies context packageDir w) as [[deps | e] w'];
        simpl in Hrep.
      * destruct (existsb hasKeys _); [done |]. injection Hnone as <-. done.
      * injection Hnone as <-. simpl. rewrite Hrep. by eexists.
Qed.

End Consultation.

(** ** The glob policy *)

Section GlobPolicy.
Context `{Externals}.

Lemma testConfig_globs patterns filename :
  testConfig (Globs patterns) filename = Some true ↔
  ∃ c, c ∈ patterns ∧
       (minimatch filename c = true ∨
        minimatch filename (path_join process_cwd c) = true).
Proof.
  unfold testConfig. split.
  - intros [= Hex]. apply existsb_exists in Hex as (c & Hin & Hc).
    exists c. split; [by apply list_elem_of_In |]. by apply orb_true_iff.
  - intros (c & Hin & Hc). f_equal. apply existsb_exists.
    exists c. split; [by apply list_elem_of_In |]. by apply orb_true_iff.
Qed.

(** C10. [testConfig] hands back a boolean, or the absence of a value,
    unchanged; an absent value allows.  For an array of globs it is a
    boolean, true exactly when the file name matches one of the globs as it
    is written or joined to the working directory.  With the globs
    [test/**] for [devDependencies], a package found in [devDependencies]
    alone is let through in [test/unit/foo.js] and gets the
    devDependencies message in [src/foo.js]. *)
Theorem C10_glob_policy :
  (∀ filename, testConfig Undefined filename = None ∧ not_false None = true) ∧
  (∀ b filename,
     testConfig (Boolean b) filename = Some b ∧ not_false (Some b) = b) ∧
  (∀ patterns filename,
     (∃ b, testConfig (Globs patterns) filename = Some b) ∧
     (testConfig (Globs patterns) filename = Some true ↔
      ∃ c, c ∈ patterns ∧
           (minimatch filename c = true ∨
            minimatch filename (path_join process_cwd c) = true))) ∧
  (∀ options deps node name pkg w,
     opt_devDependencies options = Globs ["test/**"] →
     minimatch "test/unit/foo.js" "test/**" = true →
     minimatch "src/foo.js" "test/**" = false →
     minimatch "src/foo.js" (path_join process_cwd "test/**") = false →
     checkable node name →
     packageName name = pkg →
     JSObject.defined_at (devDependencies deps) pkg = true →
     JSObject.defined_at (dependencies deps) pkg = false →
     JSObject.defined_at (optionalDependencies deps) pkg = false →
     JSObject.defined_at (peerDependencies deps) pkg = false →
     reportIfMissing deps (depsOptions_of options "test/unit/foo.js") node name w
     = (Normal (), asked w name) ∧
     reportIfMissing deps (depsOptions_of options "src/foo.js") node name w
     = (Normal (), flagged w name
          {| Report.loc := AtNode node;
             Report.message := "'" +:+ pkg +:+
                     "' should be listed in the project's dependencies, not devDependencies." |})).
Proof.
  split; [done |]. split; [by intros [] |]. split.
  - intros patterns filename. split; [by eexists |]. apply testConfig_globs.
  - intros options deps node name pkg w Hglobs Hin Hout Hout' Hc <- Hdev Hrun Hopt Hpeer.
    rewrite !reportIfMissing_checkable by done. simpl.
    rewrite Hdev, Hrun, Hopt, Hpeer, Hglobs. simpl.
    rewrite Hin, Hout, Hout'. simpl. by rewrite !andb_false_r.
Qed.

End GlobPolicy.

(** ** The properties on the concrete project *)

Section Examples.
#[local] Existing Instance Demo.externals.

Local Ltac passes_guards := repeat split; vm_compute; congruence.

Example demo_glob_inside :
  minimatch "/repo/test/unit/foo.js" (path_join process_cwd "test/**") = true.
Proof. reflexivity. Qed.

Example demo_glob_outside :
  minimatch "/repo/src/foo.js" (path_join process_cwd "test/**") = false.
Proof. reflexivity. Qed.

(** [dependencies: {lodash}], the file imports [lodash]: no diagnostic. *)
Example demo_listed_import :
  lint {| getFilename := "/repo/src/a.js"; options0 := None |}
       [ImportDeclaration None "lodash"] start
  = (Normal (),
     {| reports := [];
        calls := [CallReadPkgUp "/repo/src/a.js"; CallImportType "lodash";
                  CallResolve "lodash"] |}).
Proof. vm_compute. reflexivity. Qed.

(** The file requires [left-pad], which resolves and is not listed. *)
Example demo_unlisted_require :
  reports (after (lint {| getFilename := "/repo/src/a.js"; options0 := None |}
                       [CallExpression "left-pad"]) start)
  = [ {| Report.loc := AtNode (CallExpression "left-pad");
         Report.message := "'left-pad' should be listed in the project's dependencies. Run 'npm i -S left-pad' to add it" |} ].
Proof. vm_compute. reflexivity. Qed.

(** [devDependencies: {jest}], dev dependencies off, the file imports
    [jest]. *)
Example demo_dev_import :
  reports (after (lint {| getFilename := "/repo/src/a.js";
                          options0 := Some {| opt_devDependencies := Boolean false;
                                              opt_optionalDependencies := Undefined;
                                              opt_peerDependencies := Undefined;
                                              opt_packageDir := NoPackageDir |} |}
                       [ImportDeclaration None "jest"]) start)
  = [ {| Report.loc := AtNode (ImportDeclaration None "jest");
         Report.message := "'jest' should be listed in the project's dependencies, not devDependencies." |} ].
Proof. vm_compute. reflexivity. Qed.

(** A configured directory without a manifest: the file read fails with
    [ENOENT]. *)
Example demo_missing_configured_manifest :
  getDependencies {| getFilename := "/repo/src/a.js"; options0 := None |}
                  (OneDir "/repo/packages/gone") start
  = (Normal None,
     {| reports := [ {| Report.loc := AtPosition 0 0;
                        Report.message := "The package.json file could not be found." |} ];
        calls := [CallReadPkgUp "/repo/src/a.js";
                  CallReadFileSync "/repo/packages/gone/package.json"] |}).
Proof. vm_compute. reflexivity. Qed.

Example demo_broken_configured_manifest :
  reports (after (getDependencies {| getFilename := "/repo/src/a.js"; options0 := None |}
                                  (OneDir "/repo/packages/broken")) start)
  = [ {| Report.loc := AtPosition 0 0;
         Report.message := "The package.json file could not be parsed: Unexpected end of JSON input" |} ].
Proof. vm_compute. reflexivity. Qed.

Example demo_unreadable_configured_manifest :
  reports (after (getDependencies {| getFilename := "/repo/src/a.js"; options0 := None |}
                                  (OneDir "/repo/packages/locked")) start)
  = [ {| Report.loc := AtPosition 0 0;
         Report.message := "EACCES: permission denied, open '/repo/packages/locked/package.json'" |} ].
Proof. vm_compute. reflexivity. Qed.

(** A package named like an inherited property is found in
    [dependencies] although the manifest does not list it there. *)
Lemma inherited_name_is_never_reported_witness :
  reportIfMissing Demo.root_deps Demo.strict
                  (ImportDeclaration None "constructor") "constructor" start
  = (Normal (), asked start "constructor").
Proof.
  apply (@inherited_name_is_never_reported Demo.externals); [passes_guards |].
  apply (bool_decide_unpack _). vm_compute. exact I.
Defined.

(** The manifest of a configured directory is missing: the report is the
    one for a manifest that could not be found. *)
Lemma getDependencies_failure_witness :
  ∃ r, getDependencies {| getFilename := "/repo/src/a.js"; options0 := None |}
                       (OneDir "/repo/packages/gone") start
       = (Normal None,
          {| reports := [r];
             calls := [CallReadPkgUp "/repo/src/a.js";
                       CallReadFileSync "/repo/packages/gone/package.json"] |}) ∧
       Report.loc r = AtPosition 0 0 ∧
       Report.message r = "The package.json file could not be found.".
Proof.
  destruct (@getDependencies_failure Demo.externals
              {| getFilename := "/repo/src/a.js"; options0 := None |}
              (OneDir "/repo/packages/gone") start
              (Demo.not_found "/repo/packages/gone/package.json")
              {| reports := [];
                 calls := [CallReadPkgUp "/repo/src/a.js";
                           CallReadFileSync "/repo/packages/gone/package.json"] |}
              eq_refl)
    as (r & Heq & Hloc & Henoent & _).
  exists r. split; [exact Heq |]. split; [exact Hloc |]. apply Henoent. reflexivity.
Defined.

(** With no manifest above the file, the text reported is not the one for
    a manifest that could not be found. *)
Example demo_walk_failure_text :
  Report.message <$> reports (after (getDependencies
                             {| getFilename := "/tmp/scratch/a.js"; options0 := None |}
                             NoPackageDir) start)
  ≠ ["The package.json file could not be found."].
Proof. vm_compute. discriminate. Qed.

Lemma C1_runtime_dependency_allowed_witness :
  reportIfMissing Demo.root_deps Demo.strict
                  (ImportDeclaration None "lodash/fp") "lodash/fp" start
  = (Normal (), asked start "lodash/fp").
Proof.
  apply (C1_runtime_dependency_allowed _ _ _ _ "lodash");
    [passes_guards | reflexivity | reflexivity].
Defined.

Lemma C2_dev_only_dependency_witness :
  reportIfMissing Demo.root_deps Demo.strict (ImportDeclaration None "jest") "jest" start
  = (Normal (), flagged start "jest"
       {| Report.loc := AtNode (ImportDeclaration None "jest");
          Report.message := "'jest' should be listed in the project's dependencies, not devDependencies." |}).
Proof.
  apply (C2_dev_only_dependency Demo.root_deps Demo.strict
           (ImportDeclaration None "jest") "jest" "jest" start);
    [passes_guards | reflexivity ..].
Defined.

Lemma C3_optional_and_peer_only_witness :
  reportIfMissing Demo.root_deps Demo.strict
                  (ImportDeclaration None "fsevents") "fsevents" start
  = (Normal (), flagged start "fsevents"
       {| Report.loc := AtNode (ImportDeclaration None "fsevents");
          Report.message := "'fsevents' should be listed in the project's dependencies, not optionalDependencies." |}) ∧
  reportIfMissing Demo.root_deps Demo.strict
                  (ImportDeclaration None "react") "react/addons" start
  = (Normal (), flagged start "react/addons"
       {| Report.loc := AtNode (ImportDeclaration None "react");
          Report.message := "'react' should be listed in the project's dependencies. Run 'npm i -S react' to add it" |}).
Proof.
  assert (checkable (ImportDeclaration None "fsevents") "fsevents") as Hopt
    by passes_guards.
  assert (checkable (ImportDeclaration None "react") "react/addons") as Hpeer
    by passes_guards.
  split.
  - apply (proj2 (proj1 (@C3_optional_and_peer_only Demo.externals Demo.root_deps Demo.strict
                           (ImportDeclaration None "fsevents") "fsevents" "fsevents" start
                           Hopt eq_refl eq_refl eq_refl)
                        eq_refl eq_refl) eq_refl).
  - apply (proj2 (@C3_optional_and_peer_only Demo.externals Demo.root_deps Demo.strict
                    (ImportDeclaration None "react") "react/addons" "react" start
                    Hpeer eq_refl eq_refl eq_refl)
                 eq_refl eq_refl eq_refl).
Defined.

Lemma C4_package_name_ignores_deeper_segments_witness :
  packageName "@scope/pkg/deep/path" = "@scope/pkg" ∧
  packageName "@scope/pkg" = "@scope/pkg" ∧
  (reportIfMissing Demo.root_deps Demo.strict OtherNode "@scope/pkg/deep/path" start).1
  = (reportIfMissing Demo.root_deps Demo.strict OtherNode "@scope/pkg" start).1 ∧
  reports (after (reportIfMissing Demo.root_deps Demo.strict OtherNode "@scope/pkg/deep/path") start)
  = reports (after (reportIfMissing Demo.root_deps Demo.strict OtherNode "@scope/pkg") start).
Proof.
  apply (proj1 (proj2 (@C4_package_name_ignores_deeper_segments Demo.externals))
           "@scope" "pkg" "deep/path" Demo.root_deps Demo.strict OtherNode start);
    [reflexivity | reflexivity | reflexivity | split; reflexivity | reflexivity].
Defined.

Lemma C5_guards_skip_witness :
  reportIfMissing Demo.root_deps Demo.strict
                  (ImportDeclaration (Some "type") "left-pad") "left-pad" start
  = (Normal (), start).
Proof.
  apply (proj1 (@C5_guards_skip Demo.externals Demo.root_deps Demo.strict
                  (ImportDeclaration (Some "type") "left-pad") "left-pad" start
                  (or_introl eq_refl))).
Defined.


Lemma C7_each_manifest_once_witness :
  getDependencies {| getFilename := "/repo/src/a.js"; options0 := None |}
                  (ManyDirs ["/repo/packages/a"; "/repo/packages/a"]) start
  = getDependencies {| getFilename := "/repo/src/a.js"; options0 := None |}
                    (ManyDirs ["/repo/packages/a"]) start ∧
  getDependencies {| getFilename := "/repo/src/a.js"; options0 := None |}
                  (ManyDirs ["/repo"]) start
  = getDependencies {| getFilename := "/repo/src/a.js"; options0 := None |}
                    (ManyDirs []) start.
Proof.
  split.
  - apply (proj1 (@C7_each_manifest_once Demo.externals)
             {| getFilename := "/repo/src/a.js"; options0 := None |}
             [] "/repo/packages/a" [] "/repo/packages/a" [] start eq_refl).
  - apply (proj1 (proj1 (proj2 (@C7_each_manifest_once Demo.externals))
             {| getFilename := "/repo/src/a.js"; options0 := None |}
             {| pkg := Some Demo.root_manifest; path := Some "/repo/package.json" |}
             [] "/repo" [] start eq_refl eq_refl)).
Defined.

Lemma C8_walk_failure_is_reported_as_type_error_witness :
  getDependencies {| getFilename := "/tmp/scratch/a.js"; options0 := None |}
                  NoPackageDir start
  = (Normal None,
     {| reports := [ {| Report.loc := AtPosition 0 0;
                        Report.message := "Cannot read property 'dependencies' of undefined" |} ];
        calls := [CallReadPkgUp "/tmp/scratch/a.js"] |}).
Proof.
  apply (@C8_walk_failure_is_reported_as_type_error Demo.externals
           {| getFilename := "/tmp/scratch/a.js"; options0 := None |}
           NoPackageDir {| pkg := None; path := None |} start eq_refl eq_refl).
Defined.

Lemma C9_no_table_no_checking_witness :
  lint {| getFilename := "/empty/a.js"; options0 := None |}
       [ImportDeclaration None "left-pad"; CallExpression "jest"] start
  = (Normal (), {| reports := []; calls := [CallReadPkgUp "/empty/a.js"] |}).
Proof.
  apply (proj2 (@C9_no_table_no_checking Demo.externals
                  {| getFilename := "/empty/a.js"; options0 := None |}
                  [ImportDeclaration None "left-pad"; CallExpression "jest"] start)
               {| reports := []; calls := [CallReadPkgUp "/empty/a.js"] |} eq_refl).
Defined.

Lemma C10_glob_policy_witness :
  let options := {| opt_devDependencies := Globs ["test/**"];
                    opt_optionalDependencies := Undefined;
                    opt_peerDependencies := Undefined;
                    opt_packageDir := NoPackageDir |} in
  reportIfMissing Demo.root_deps (depsOptions_of options "test/unit/foo.js")
                  (ImportDeclaration None "jest") "jest" start
  = (Normal (), asked start "jest") ∧
  reportIfMissing Demo.root_deps (depsOptions_of options "src/foo.js")
                  (ImportDeclaration None "jest") "jest" start
  = (Normal (), flagged start "jest"
       {| Report.loc := AtNode (ImportDeclaration None "jest");
          Report.message := "'jest' should be listed in the project's dependencies, not devDependencies." |}).
Proof.
  intros options.
  apply (proj2 (proj2 (proj2 (@C10_glob_policy Demo.externals))) options Demo.root_deps
           (ImportDeclaration None "jest") "jest" "jest" start);
    [reflexivity | reflexivity | reflexivity | reflexivity | passes_guards
    | reflexivity ..].
Defined.

End Examples.

(** * Further properties of the rule *)

(** ** The decision of [reportIfMissing] *)

Section Verdicts.
Context `{Externals}.

Lemma exempt_or_checkable node name : exempt node name ∨ checkable node name.
Proof.
  unfold exempt, checkable.
  destruct (decide (importKind_of node = Some "type")); [tauto |].
  destruct (decide (importType name = "external")); [| tauto].
  destruct (falsy (resolve name)); tauto.
Qed.

Lemma flagged_is_not_asked w name r : flagged w name r ≠ asked w name.
Proof.
  unfold flagged, asked. intros [= Heq].
  apply (f_equal length) in Heq. rewrite length_app in Heq. simpl in Heq. lia.
Qed.

(** The lookup in a merged section is the disjunction of the lookups. *)
Lemma defined_at_assign (target source : JSObject.t) k :
  JSObject.defined_at (JSObject.assign target source) k
  = JSObject.defined_at target k || JSObject.defined_at source k.
Proof.
  unfold JSObject.defined_at.
  destruct (decide (k = "__proto__")) as [-> | Hk].
  { replace (JSObject.inherited "__proto__") with true by (by vm_compute).
    by rewrite !orb_true_r. }
  unfold JSObject.own. destruct (source !! k) as [v |] eqn:Hs.
  - rewrite (assign_takes_source _ _ _ _ Hk Hs).
    rewrite (bool_decide_eq_true_2 (is_Some (Some v))) by done.
    simpl. by rewrite !orb_true_r.
  - rewrite (assign_untouched _ _ _ Hs).
    rewrite (bool_decide_eq_false_2 (is_Some None)) by (by intros [? ?]).
    by destruct (bool_decide _), (JSObject.inherited k).
Qed.

(** [reportIfMissing] looks at the table only through the four lookups of
    the package name. *)
Lemma reportIfMissing_by_lookups deps deps' opts node name w :
  (∀ c, JSObject.defined_at (section_of c deps) (packageName name)
        = JSObject.defined_at (section_of c deps') (packageName name)) →
  reportIfMissing deps opts node name w = reportIfMissing deps' opts node name w.
Proof.
  intros Hsame. destruct (exempt_or_checkable node name) as [Hex | Hc].
  - by rewrite !reportIfMissing_exempt.
  - rewrite !reportIfMissing_checkable by done. simpl.
    pose proof (Hsame Runtime) as E1. pose proof (Hsame Development) as E2.
    pose proof (Hsame Optional) as E3. pose proof (Hsame Peer) as E4.
    simpl in E1, E2, E3, E4. by rewrite E1, E2, E3, E4.
Qed.

(** X3. For a specifier that passes the guards the verdict is decided as
    follows.  It is let through exactly when its package is found in
    [dependencies] or in a section whose flag is on, even if it is also
    found in a section whose flag is off.  Otherwise the message is the
    devDependencies one when the package is found in [devDependencies]
    (then with its flag off), else the optionalDependencies one when it is
    found in [optionalDependencies], else the one for a missing package. *)
Theorem verdict_by_priority deps opts node name w :
  checkable node name →
  let pkg := packageName name in
  let found c := JSObject.defined_at (section_of c deps) pkg in
  let allowed :=
    found Runtime || (allowDevDeps opts && found Development)
    || (allowPeerDeps opts && found Peer) || (allowOptDeps opts && found Optional) in
  (reportIfMissing deps opts node name w = (Normal (), asked w name) ↔ allowed = true) ∧
  (allowed = false → found Development = true →
   allowDevDeps opts = false ∧
   reportIfMissing deps opts node name w
   = (Normal (), flagged w name {| Report.loc := AtNode node;
                                   Report.message := devDepErrorMessage pkg |})) ∧
  (allowed = false → found Development = false → found Optional = true →
   allowOptDeps opts = false ∧
   reportIfMissing deps opts node name w
   = (Normal (), flagged w name {| Report.loc := AtNode node;
                                   Report.message := optDepErrorMessage pkg |})) ∧
  (allowed = false → found Development = false → found Optional = false →
   reportIfMissing deps opts node name w
   = (Normal (), flagged w name {| Report.loc := AtNode node;
                                   Report.message := missingErrorMessage pkg |})).
Proof.
  intros Hc pkg found allowed. rewrite reportIfMissing_checkable by done.
  subst allowed found pkg. simpl.
  destruct (JSObject.defined_at (dependencies deps) _),
    (JSObject.defined_at (devDependencies deps) _),
    (JSObject.defined_at (optionalDependencies deps) _),
    (JSObject.defined_at (peerDependencies deps) _),
    (allowDevDeps opts), (allowOptDeps opts), (allowPeerDeps opts); simpl;
    repeat split; try done; try discriminate;
    intros Heq; apply (f_equal snd) in Heq; by apply flagged_is_not_asked in Heq.
Qed.

(** X4. [reportIfMissing] never throws, never touches the reports made
    before, and adds at most one report: at the node it was given, with one
    of the three messages for the package name of the specifier. *)
Theorem reportIfMissing_adds_at_most_one_report deps opts node name w :
  ∃ added,
    reportIfMissing deps opts node name w
    = (Normal (), {| reports := reports w ++ added;
                     calls := calls w ++ consulted node name |}) ∧
    (added = [] ∨
     ∃ text, added = [ {| Report.loc := AtNode node; Report.message := text |} ] ∧
             text ∈ [ devDepErrorMessage (packageName name);
                      optDepErrorMessage (packageName name);
                      missingErrorMessage (packageName name) ]).
Proof.
  destruct (exempt_or_checkable node name) as [Hex | Hc].
  - exists []. rewrite reportIfMissing_exempt by done. rewrite app_nil_r. tauto.
  - rewrite reportIfMissing_checkable by done.
    assert (consulted node name = [CallImportType name; CallResolve name]) as ->.
    { destruct Hc as (Hkind & Hext & _). unfold consulted.
      by rewrite (bool_decide_eq_false_2 _ Hkind), (bool_decide_eq_true_2 _ Hext). }
    simpl. unfold asked, flagged.
    repeat match goal with |- context [if ?b then _ else _] => destruct b end.
    + exists []. rewrite app_nil_r. tauto.
    + eexists. split; [reflexivity |]. right. eexists. split; [reflexivity |]. set_solver.
    + eexists. split; [reflexivity |]. right. eexists. split; [reflexivity |]. set_solver.
    + eexists. split; [reflexivity |]. right. eexists. split; [reflexivity |]. set_solver.
Qed.

(** X5. Turning a flag on never adds a report: a specifier that is not
    reported under some flags is not reported under flags that allow at
    least as much. *)
Theorem allowing_more_never_adds_a_report deps opts opts' node name w :
  (allowDevDeps opts = true → allowDevDeps opts' = true) →
  (allowOptDeps opts = true → allowOptDeps opts' = true) →
  (allowPeerDeps opts = true → allowPeerDeps opts' = true) →
  reports (after (reportIfMissing deps opts node name) w) = reports w →
  reports (after (reportIfMissing deps opts' node name) w) = reports w.
Proof.
  intros Hdev Hopt Hpeer. unfold after.
  destruct (exempt_or_checkable node name) as [Hex | Hc].
  { by rewrite !reportIfMissing_exempt. }
  rewrite !reportIfMissing_checkable by done. simpl.
  destruct (JSObject.defined_at (dependencies deps) _),
    (JSObject.defined_at (devDependencies deps) _),
    (JSObject.defined_at (optionalDependencies deps) _),
    (JSObject.defined_at (peerDependencies deps) _),
    (allowDevDeps opts), (allowOptDeps opts), (allowPeerDeps opts),
    (allowDevDeps opts'), (allowOptDeps opts'), (allowPeerDeps opts'); simpl;
    try done; intros Heq;
    first [ by specialize (Hdev eq_refl)
          | by specialize (Hopt eq_refl)
          | by specialize (Hpeer eq_refl)
          | apply (f_equal length) in Heq; rewrite length_app in Heq;
            simpl in Heq; lia ].
Qed.

(** X6. Merging one more manifest never adds a report: a specifier that is
    not reported against a table is not reported against the table merged
    with any other. *)
Theorem merging_never_adds_a_report acc src opts node name w :
  reports (after (reportIfMissing acc opts node name) w) = reports w →
  reports (after (reportIfMissing (assignDeps acc src) opts node name) w) = reports w.
Proof.
  unfold after. destruct (exempt_or_checkable node name) as [Hex | Hc].
  { by rewrite !reportIfMissing_exempt. }
  rewrite !reportIfMissing_checkable by done. simpl.
  rewrite !defined_at_assign.
  destruct (JSObject.defined_at (dependencies acc) _),
    (JSObject.defined_at (devDependencies acc) _),
    (JSObject.defined_at (optionalDependencies acc) _),
    (JSObject.defined_at (peerDependencies acc) _),
    (allowDevDeps opts), (allowOptDeps opts), (allowPeerDeps opts); simpl;
    rewrite ?orb_true_r, ?andb_true_r; simpl; try done;
    intros Heq; apply (f_equal length) in Heq; rewrite length_app in Heq;
    simpl in Heq; lia.
Qed.

(** X7. The version strings are never looked at: two tables whose sections
    have the same keys give the same verdict, reports and calls. *)
Theorem versions_are_ignored deps deps' opts node name w :
  (∀ c k, is_Some (section_of c deps !! k) ↔ is_Some (section_of c deps' !! k)) →
  reportIfMissing deps opts node name w = reportIfMissing deps' opts node name w.
Proof.
  intros Hkeys. apply reportIfMissing_by_lookups. intros c.
  unfold JSObject.defined_at, JSObject.own. f_equal.
  apply bool_decide_ext, Hkeys.
Qed.

End Verdicts.

(** ** Merging, again *)

Section MergeAlgebra.
Context `{Externals}.

Lemma defined_at_fold c k sources init :
  JSObject.defined_at (section_of c (fold_left assignDeps sources init)) k
  = existsb (λ src, JSObject.defined_at (section_of c src) k) (init :: sources).
Proof.
  revert init. induction sources as [|src sources IH]; intros init; simpl.
  - by rewrite orb_false_r.
  - rewrite IH. simpl. rewrite section_of_assignDeps, defined_at_assign.
    by rewrite orb_assoc.
Qed.

Lemma existsb_Permutation {A} (f : A → bool) l l' :
  l ≡ₚ l' → existsb f l = existsb f l'.
Proof.
  induction 1 as [| x l l' _ IH | x y l | l l' l'' _ IH1 _ IH2]; simpl.
  - done.
  - by rewrite IH.
  - by destruct (f x), (f y).
  - by rewrite IH1.
Qed.

(** X8. The order in which manifests are merged changes no verdict: tables
    folded from the same manifests in two orders, the nearest one
    included, give the same completion, reports and calls for every
    specifier. *)
Theorem merge_order_changes_no_verdict init sources init' sources' opts node name w :
  init :: sources ≡ₚ init' :: sources' →
  reportIfMissing (fold_left assignDeps sources init) opts node name w
  = reportIfMissing (fold_left assignDeps sources' init') opts node name w.
Proof.
  intros Hperm. apply reportIfMissing_by_lookups. intros c.
  rewrite !defined_at_fold. by apply existsb_Permutation.
Qed.

Lemma own_assign_proto (target source : JSObject.t) :
  JSObject.own (JSObject.assign target source) "__proto__"
  = JSObject.own target "__proto__".
Proof.
  destruct (JSObject.own target "__proto__") eqn:Hown.
  - unfold JSObject.own in *. apply bool_decide_eq_true in Hown.
    apply bool_decide_eq_true. by apply assign_keeps_target.
  - rewrite assign_union, Hown.
    unfold JSObject.own in *. apply bool_decide_eq_false in Hown.
    apply bool_decide_eq_false. intros [x Hx].
    apply lookup_union_Some_raw in Hx as [Hx | [_ Hx]].
    + by rewrite lookup_delete_eq in Hx.
    + apply Hown. by exists x.
Qed.

Lemma assign_twice (target source : JSObject.t) :
  JSObject.assign (JSObject.assign target source) source = JSObject.assign target source.
Proof.
  rewrite (assign_union (JSObject.assign target source)), own_assign_proto.
  rewrite assign_union.
  destruct (JSObject.own target "__proto__");
    by rewrite (assoc_L (∪)), (idemp_L (∪)).
Qed.

Lemma assign_self (obj : JSObject.t) : JSObject.assign obj obj = obj.
Proof.
  rewrite assign_union. destruct (JSObject.own obj "__proto__").
  - by rewrite (idemp_L (∪)).
  - apply map_subseteq_union, delete_subseteq.
Qed.

(** X9. Merging a manifest that has been merged already changes nothing,
    and so does merging a table into itself: leaving out a manifest that
    was consulted before loses nothing. *)
Theorem merging_again_changes_nothing acc src :
  assignDeps (assignDeps acc src) src = assignDeps acc src ∧
  assignDeps src src = src.
Proof.
  split.
  - unfold assignDeps; simpl. by rewrite !assign_twice.
  - destruct src. unfold assignDeps; simpl. by rewrite !assign_self.
Qed.

End MergeAlgebra.

(** ** Package names and messages, again *)

Section Names.

Lemma append_assoc (s t u : string) : (s +:+ t) +:+ u = s +:+ (t +:+ u).
Proof.
  induction s as [|c s IH]; [done |].
  change (String c ((s +:+ t) +:+ u) = String c (s +:+ (t +:+ u))). by rewrite IH.
Qed.

Lemma length_append (s t : string) :
  String.length (s +:+ t) = String.length s + String.length t.
Proof.
  induction s as [|c s IH]; [done |].
  change (S (String.length (s +:+ t)) = S (String.length s + String.length t)).
  by rewrite IH.
Qed.

Lemma append_same_head_length (s s' t t' : string) :
  s +:+ t = s' +:+ t' → String.length s = String.length s' → s = s' ∧ t = t'.
Proof.
  revert s'. induction s as [|c s IH]; intros [|c' s']; simpl; try done.
  intros [= -> Heq] [= Hlen]. destruct (IH _ Heq Hlen) as [-> ->]. done.
Qed.

Lemma append_same_tail_length (s s' t t' : string) :
  s +:+ t = s' +:+ t' → String.length t = String.length t' → s = s' ∧ t = t'.
Proof.
  intros Heq Hlen. apply append_same_head_length; [done |].
  apply (f_equal String.length) in Heq. rewrite !length_append in Heq. lia.
Qed.

(** X10. The package name of a package name is itself: a report names a
    package that, imported as it is named, is classified the same way. *)
Theorem packageName_idempotent name :
  packageName (packageName name) = packageName name.
Proof.
  unfold packageName at 2 3.
  pose proof (split_segments_free "/" name) as Hfree.
  destruct (JSString.split "/" name) as [|a rest]; simpl.
  { by inversion Hfree. }
  apply Forall_cons in Hfree as [Ha Hrest].
  case_bool_decide as Hat.
  - destruct rest as [|b rest]; simpl.
    + by apply packageName_plain_root.
    + apply Forall_cons in Hrest as [Hb _]. by apply packageName_scoped_root.
  - by apply packageName_plain_root.
Qed.

(** X11. A specifier is its package name followed by nothing or by a slash
    and a path: the package name is cut at a slash of the specifier and
    keeps its first characters. *)
Theorem packageName_is_a_leading_part name :
  ∃ rest, name = packageName name +:+ rest ∧
          (rest = EmptyString ∨ ∃ deeper, rest = String "/" deeper).
Proof.
  pose proof (join_split "/" name) as Hjoin.
  pose proof (split_not_nil "/" name) as Hne.
  unfold packageName.
  destruct (JSString.split "/" name) as [|a rest]; [done |]. simpl.
  assert (∀ s : string, s = s +:+ EmptyString) as Hnil.
  { intros s. induction s as [|c s IH]; [done |].
    change (String c s = String c (s +:+ EmptyString)). by rewrite <- IH. }
  assert (∀ tail, ∃ r, JSString.join "/" (a :: tail) = a +:+ r ∧
            (r = EmptyString ∨ ∃ deeper, r = String "/" deeper)) as Hfirst.
  { intros [|b tail]; simpl.
    - exists EmptyString. split; [apply Hnil | by left].
    - eexists. split; [reflexivity |]. right. by eexists. }
  case_bool_decide as Hat.
  - destruct rest as [|b rest]; simpl in *.
    + exists EmptyString. split; [by rewrite <- Hjoin, <- Hnil | by left].
    + destruct rest as [|c rest]; simpl in *.
      * exists EmptyString. split; [by rewrite <- Hjoin, <- Hnil | by left].
      * eexists. split; [| right; by eexists].
        rewrite <- Hjoin. by rewrite append_assoc.
  - rewrite <- Hjoin. apply Hfirst.
Qed.

(** X12. A message tells which of the three it is and for which package:
    each template gives different messages for different package names, and
    no message of one template is a message of another. *)
Theorem messages_are_unambiguous :
  (∀ p q, devDepErrorMessage p = devDepErrorMessage q → p = q) ∧
  (∀ p q, optDepErrorMessage p = optDepErrorMessage q → p = q) ∧
  (∀ p q, missingErrorMessage p = missingErrorMessage q → p = q) ∧
  (∀ p q, devDepErrorMessage p ≠ optDepErrorMessage q) ∧
  (∀ p q, devDepErrorMessage p ≠ missingErrorMessage q) ∧
  (∀ p q, optDepErrorMessage p ≠ missingErrorMessage q).
Proof.
  assert (∀ p, devDepErrorMessage p
               = String "'" (p +:+ "' should be listed in the project's dependencies, not devDependencies."))
    as Hdev by done.
  assert (∀ p, optDepErrorMessage p
               = String "'" (p +:+ "' should be listed in the project's dependencies, not optionalDependencies."))
    as Hopt by done.
  assert (∀ p, missingErrorMessage p
               = String "'" (p +:+ "' should be listed in the project's dependencies. Run 'npm i -S "
                               +:+ p +:+ "' to add it"))
    as Hmissing by done.
  repeat split; intros p q; rewrite ?Hdev, ?Hopt, ?Hmissing.
  - intros [= Heq]. by apply append_same_tail_length in Heq as [? _].
  - intros [= Heq]. by apply append_same_tail_length in Heq as [? _].
  - intros [= Heq]. apply append_same_head_length in Heq as [? _]; [done |].
    apply (f_equal String.length) in Heq. rewrite !length_append in Heq.
    simpl in Heq. lia.
  - intros [= Heq].
    change "' should be listed in the project's dependencies, not devDependencies."
      with ("' should be listed in the project's dependencies, not " +:+ "devDependencies.")
      in Heq.
    change "' should be listed in the project's dependencies, not optionalDependencies."
      with ("' should be listed in the project's dependencies, not optio" +:+ "nalDependencies.")
      in Heq.
    rewrite <- !append_assoc in Heq.
    by apply append_same_tail_length in Heq as [_ ?].
  - intros [= Heq].
    change "' should be listed in the project's dependencies, not devDependencies."
      with ("' should be listed in the project's dependencies, not devDependencies" +:+ ".")
      in Heq.
    change "' to add it" with ("' to add i" +:+ "t") in Heq.
    rewrite <- !append_assoc in Heq.
    by apply append_same_tail_length in Heq as [_ ?].
  - intros [= Heq].
    change "' should be listed in the project's dependencies, not optionalDependencies."
      with ("' should be listed in the project's dependencies, not optionalDependencies" +:+ ".")
      in Heq.
    change "' to add it" with ("' to add i" +:+ "t") in Heq.
    rewrite <- !append_assoc in Heq.
    by apply append_same_tail_length in Heq as [_ ?].
Qed.

End Names.

(** ** Options *)

Section Policy.
Context `{Externals}.

(** X13. An empty array of globs allows no file.  The globs of two arrays
    put together allow a file exactly when one of the arrays does, so the
    order of the globs and a glob given twice make no difference. *)
Theorem globs_are_alternatives :
  (∀ filename, not_false (testConfig (Globs []) filename) = false) ∧
  (∀ ps qs filename,
     not_false (testConfig (Globs (ps ++ qs)) filename)
     = not_false (testConfig (Globs ps) filename)
       || not_false (testConfig (Globs qs) filename)) ∧
  (∀ ps qs filename,
     ps ≡ₚ qs → testConfig (Globs ps) filename = testConfig (Globs qs) filename) ∧
  (∀ ps filename,
     testConfig (Globs (ps ++ ps)) filename = testConfig (Globs ps) filename).
Proof.
  assert (∀ b, not_false (Some b) = b) as Hnf by (by intros []).
  repeat split.
  - intros ps qs filename. simpl. by rewrite !Hnf, existsb_app.
  - intros ps qs filename Hperm. simpl. f_equal. by apply existsb_Permutation.
  - intros ps filename. simpl. f_equal. rewrite existsb_app. apply orb_diag.
Qed.

(** X14. Without options, and with options that leave the three sections
    unset, every section allows: a specifier that passes the guards is
    reported exactly when its package is found in none of the four
    sections, and the message is then the one for a missing package. *)
Theorem default_options_report_only_missing_packages options filename deps node name w :
  opt_devDependencies options = Undefined →
  opt_optionalDependencies options = Undefined →
  opt_peerDependencies options = Undefined →
  checkable node name →
  let opts := depsOptions_of options filename in
  let found c := JSObject.defined_at (section_of c deps) (packageName name) in
  depsOptions_of no_options filename = opts ∧
  ((∃ c, found c = true) →
   reportIfMissing deps opts node name w = (Normal (), asked w name)) ∧
  ((∀ c, found c = false) →
   reportIfMissing deps opts node name w
   = (Normal (), flagged w name
        {| Report.loc := AtNode node;
           Report.message := missingErrorMessage (packageName name) |})).
Proof.
  intros Hdev Hopt Hpeer Hc opts found. subst opts found.
  unfold depsOptions_of. rewrite Hdev, Hopt, Hpeer. simpl.
  split; [done |]. rewrite reportIfMissing_checkable by done. simpl. split.
  - intros [c Hfound].
    destruct c; simpl in Hfound; rewrite Hfound; simpl;
      rewrite ?orb_true_r; done.
  - intros Hnone.
    pose proof (Hnone Runtime) as E1. pose proof (Hnone Development) as E2.
    pose proof (Hnone Optional) as E3. pose proof (Hnone Peer) as E4.
    simpl in E1, E2, E3, E4. by rewrite E1, E2, E3, E4.
Qed.

End Policy.

(** ** The aggregator, again *)

Section Building.
Context `{Externals}.

Local Arguments mergeDir : simpl never.

Lemma mergeDir_fails files allDeps dir e w :
  let pkgFile := path_resolve dir "package.json" in
  Some pkgFile ∉ files →
  (fs_readFileSync pkgFile = inl e ∨
   ∃ content, fs_readFileSync pkgFile = inr content ∧ JSON_parse content = inl e) →
  mergeDir (files, allDeps) dir w
  = (Throw e, {| reports := reports w; calls := calls w ++ [CallReadFileSync pkgFile] |}).
Proof.
  intros pkgFile Hout Hfail. unfold mergeDir. fold pkgFile.
  rewrite (bool_decide_eq_false_2 _ Hout).
  unfold mbind, M_bind, called, of_result, throw, mret, M_ret; simpl.
  destruct Hfail as [-> | (content & -> & ->)]; done.
Qed.


(** X15. The first configured manifest that cannot be read or parsed ends
    the merge with its error: the directories after it are not read, and
    what was merged before is dropped. *)
Theorem first_failure_ends_the_merge
    context closest nearest before manifests dir later e w :
  let pkgFile := path_resolve dir "package.json" in
  let read := fresh_files [path closest] before in
  readPkgUp_sync (getFilename context) = inr closest →
  pkg closest = Some nearest →
  Forall2 holds read manifests →
  Some pkgFile ∉ path closest :: (Some <$> read) →
  (fs_readFileSync pkgFile = inl e ∨
   ∃ content, fs_readFileSync pkgFile = inr content ∧ JSON_parse content = inl e) →
  mergedDependencies context (ManyDirs (before ++ dir :: later)) w
  = (Throw e,
     {| reports := reports w;
        calls := calls w ++ CallReadPkgUp (getFilename context)
                   :: (CallReadFileSync <$> read) ++ [CallReadFileSync pkgFile] |}).
Proof.
  intros pkgFile read Hup Hpkg Hread Hout Hfail.
  rewrite mergedDependencies_eq, Hup, Hpkg. simpl.
  rewrite reduce_app. unfold mbind at 1. unfold M_bind.
  rewrite (reduce_mergeDir_fold _ _ _ manifests) by done. simpl.
  unfold mbind, M_bind. fold pkgFile read.
  rewrite (mergeDir_fails _ _ _ e) by done. simpl.
  by rewrite <- !(assoc_L (++)).
Qed.


End Building.

(** ** The traversal *)

Section Traversal.
Context `{Externals}.

Lemma traverse_app listeners l1 l2 w :
  traverse listeners (l1 ++ l2) w
  = (traverse listeners l1;; traverse listeners l2) w.
Proof.
  revert w. induction l1 as [|node l1 IH]; intros w; simpl; [done |].
  unfold mbind, M_bind in *.
  destruct (visit listeners node w) as [[[] | e] w1]; [| done]. apply IH.
Qed.

(** What [reportIfMissing] adds does not depend on what was reported and
    called before. *)
Lemma reportIfMissing_uniform deps opts node name :
  ∃ added,
    (∀ w, reportIfMissing deps opts node name w
          = (Normal (), {| reports := reports w ++ added;
                           calls := calls w ++ consulted node name |})) ∧
    (length added ≤ 1)%nat ∧
    Forall (λ r, Report.loc r = AtNode node) added.
Proof.
  destruct (exempt_or_checkable node name) as [Hex | Hc].
  { exists []. split; [| split; [simpl; lia | constructor]].
    intros w. rewrite reportIfMissing_exempt by done. by rewrite app_nil_r. }
  assert (consulted node name = [CallImportType name; CallResolve name]) as ->.
  { destruct Hc as (Hkind & Hext & _). unfold consulted.
    by rewrite (bool_decide_eq_false_2 _ Hkind), (bool_decide_eq_true_2 _ Hext). }
  set (pkg := packageName name).
  set (isInDeps := JSObject.defined_at (dependencies deps) pkg).
  set (isInDevDeps := JSObject.defined_at (devDependencies deps) pkg).
  set (isInOptDeps := JSObject.defined_at (optionalDependencies deps) pkg).
  set (isInPeerDeps := JSObject.defined_at (peerDependencies deps) pkg).
  exists (if isInDeps || (allowDevDeps opts && isInDevDeps)
             || (allowPeerDeps opts && isInPeerDeps) || (allowOptDeps opts && isInOptDeps)
          then []
          else if isInDevDeps && negb (allowDevDeps opts)
          then [ {| Report.loc := AtNode node; Report.message := devDepErrorMessage pkg |} ]
          else if isInOptDeps && negb (allowOptDeps opts)
          then [ {| Report.loc := AtNode node; Report.message := optDepErrorMessage pkg |} ]
          else [ {| Report.loc := AtNode node; Report.message := missingErrorMessage pkg |} ]).
  split; [| split].
  - intros w. rewrite reportIfMissing_checkable by done. simpl.
    fold pkg isInDeps isInDevDeps isInOptDeps isInPeerDeps. unfold asked, flagged.
    repeat match goal with |- context [if ?b then _ else _] => destruct b end;
      by rewrite ?app_nil_r.
  - repeat match goal with |- context [if ?b then _ else _] => destruct b end;
      simpl; lia.
  - repeat match goal with |- context [if ?b then _ else _] => destruct b end;
      repeat constructor.
Qed.

(** The same for a node: never an exception, and the reports of the node
    on its own are added to the reports made before. *)
Lemma classifyNode_uniform deps opts node :
  (length (reports_for deps opts node) ≤ 1)%nat ∧
  Forall (λ r, Report.loc r = AtNode node) (reports_for deps opts node) ∧
  ∃ cs, ∀ w, classifyNode deps opts node w
             = (Normal (), {| reports := reports w ++ reports_for deps opts node;
                              calls := calls w ++ cs |}).
Proof.
  assert (∀ name, classifyNode deps opts node = reportIfMissing deps opts node name →
            (length (reports_for deps opts node) ≤ 1)%nat ∧
            Forall (λ r, Report.loc r = AtNode node) (reports_for deps opts node) ∧
            ∃ cs, ∀ w, classifyNode deps opts node w
                       = (Normal (), {| reports := reports w ++ reports_for deps opts node;
                                        calls := calls w ++ cs |})) as Hreport.
  { intros name Heq.
    destruct (reportIfMissing_uniform deps opts node name) as (added & Hrun & Hlen & Hloc).
    assert (reports_for deps opts node = added) as ->.
    { unfold reports_for, after. by rewrite Heq, Hrun. }
    split; [done |]. split; [done |]. eexists. intros w. rewrite Heq. apply Hrun. }
  assert (classifyNode deps opts node = mret () →
            (length (reports_for deps opts node) ≤ 1)%nat ∧
            Forall (λ r, Report.loc r = AtNode node) (reports_for deps opts node) ∧
            ∃ cs, ∀ w, classifyNode deps opts node w
                       = (Normal (), {| reports := reports w ++ reports_for deps opts node;
                                        calls := calls w ++ cs |})) as Hnothing.
  { intros Heq. unfold reports_for, after. rewrite Heq. simpl.
    split; [lia |]. split; [constructor |]. exists []. intros w.
    unfold mret, M_ret. rewrite !app_nil_r. by destruct w. }
  destruct node as [kind value | value |].
  - by apply (Hreport value).
  - destruct (isStaticRequire (CallExpression value)) eqn:Hstatic.
    + apply (Hreport value). simpl. by rewrite Hstatic.
    + apply Hnothing. simpl. by rewrite Hstatic.
  - by apply Hnothing.
Qed.

Lemma traverse_classifies listeners deps opts nodes :
  (∀ node w, visit listeners node w = classifyNode deps opts node w) →
  ∃ cs, ∀ w, traverse listeners nodes w
             = (Normal (), {| reports := reports w ++ flat_map (reports_for deps opts) nodes;
                              calls := calls w ++ cs |}).
Proof.
  intros Hvisit. induction nodes as [|node nodes [cs IH]]; simpl.
  - exists []. intros w. unfold mret, M_ret. rewrite !app_nil_r. by destruct w.
  - destruct (classifyNode_uniform deps opts node) as (_ & _ & cs1 & Hnode).
    exists (cs1 ++ cs). intros w. unfold mbind, M_bind.
    rewrite Hvisit, Hnode, IH. simpl. by rewrite !(assoc_L (++)).
Qed.

(** The listeners [create] registers do to a node what [classifyNode]
    does. *)
Lemma create_listeners context w :
  ∃ table w1,
    getDependencies context (opt_packageDir (default no_options (options0 context))) w
    = (Normal table, w1) ∧
    ∃ listeners,
      create context w = (Normal listeners, w1) ∧
      match table with
      | Some deps =>
          ∀ node w',
            visit listeners node w'
            = classifyNode deps
                (depsOptions_of (default no_options (options0 context))
                                (getFilename context)) node w'
      | None => listeners = {| on_ImportDeclaration := None; on_CallExpression := None |}
      end.
Proof.
  unfold create. unfold mbind, M_bind.
  set (packageDir := opt_packageDir (default no_options (options0 context))).
  assert (∃ table w1, getDependencies context packageDir w = (Normal table, w1))
    as (table & w1 & Hget).
  { rewrite getDependencies_eq.
    destruct (mergedDependencies context packageDir w) as [[deps | e] w'];
      [destruct (existsb hasKeys _) |]; by eexists _, _. }
  exists table, w1. split; [done |]. rewrite Hget.
  destruct table as [deps |]; eexists; (split; [reflexivity |]); [| done].
  intros [kind value | value |] w'; simpl; [done | | done].
  by destruct (isStaticRequire (CallExpression value)).
Qed.

(** The outcome of a run: never an exception; the world after building the
    table, then what each node adds on its own. *)
Lemma lint_outcome context nodes w :
  let options := default no_options (options0 context) in
  let opts := depsOptions_of options (getFilename context) in
  ∃ table w1 cs,
    getDependencies context (opt_packageDir options) w = (Normal table, w1) ∧
    lint context nodes w
    = (Normal (),
       {| reports := reports w1 ++
                     match table with
                     | Some deps => flat_map (reports_for deps opts) nodes
                     | None => []
                     end;
          calls := calls w1 ++ cs |}).
Proof.
  intros options opts.
  destruct (create_listeners context w) as (table & w1 & Hget & listeners & Hcreate & Hls).
  exists table, w1. unfold lint, mbind, M_bind. rewrite Hcreate.
  destruct table as [deps |].
  - destruct (traverse_classifies listeners deps opts nodes Hls) as [cs Hcs].
    exists cs. split; [done |]. apply Hcs.
  - exists []. split; [done |]. subst listeners.
    rewrite traverse_no_listeners, !app_nil_r. by destruct w1.
Qed.

(** X17. Every node is classified on its own: the run never throws, and
    its reports are what building the table reported, followed by the
    reports each node of the file gets on its own, in the order of the
    nodes; with no table, nothing follows. *)
Theorem nodes_are_classified_independently context nodes w :
  let options := default no_options (options0 context) in
  let opts := depsOptions_of options (getFilename context) in
  ∃ table w1,
    getDependencies context (opt_packageDir options) w = (Normal table, w1) ∧
    (lint context nodes w).1 = Normal () ∧
    reports (after (lint context nodes) w)
    = reports w1 ++ match table with
                    | Some deps => flat_map (reports_for deps opts) nodes
                    | None => []
                    end.
Proof.
  intros options opts.
  destruct (lint_outcome context nodes w) as (table & w1 & cs & Hget & Hlint).
  exists table, w1. unfold after. by rewrite Hlint.
Qed.

Lemma node_reports_sublist deps opts nodes :
  sublist (Report.loc <$> flat_map (reports_for deps opts) nodes) (AtNode <$> nodes).
Proof.
  induction nodes as [|node nodes IH]; simpl; [constructor |].
  destruct (classifyNode_uniform deps opts node) as (Hlen & Hloc & _).
  destruct (reports_for deps opts node) as [|r [|r' rest]]; simpl in *.
  - by apply sublist_cons.
  - apply Forall_cons in Hloc as [-> _]. by apply sublist_skip.
  - lia.
Qed.

(** X18. A run reports either one diagnostic at line 0, column 0 and
    nothing else, or reports at nodes of the file only: at most one for
    each node, in the order of the nodes. *)
Theorem file_diagnostic_or_node_reports context nodes w :
  ∃ added w',
    lint context nodes w = (Normal (), w') ∧
    reports w' = reports w ++ added ∧
    ((∃ r, added = [r] ∧ Report.loc r = AtPosition 0 0) ∨
     sublist (Report.loc <$> added) (AtNode <$> nodes)).
Proof.
  destruct (lint_outcome context nodes w) as (table & w1 & cs & Hget & Hlint).
  set (packageDir := opt_packageDir (default no_options (options0 context))) in *.
  pose proof (mergedDependencies_effects context packageDir w) as [Hrep _].
  unfold after in Hrep. rewrite getDependencies_eq in Hget.
  destruct (mergedDependencies context packageDir w) as [[deps | e] w0]; simpl in Hrep.
  - destruct (existsb hasKeys _); injection Hget as <- <-.
    + eexists _, _. split; [exact Hlint |]. simpl. rewrite Hrep.
      split; [reflexivity |]. right. apply node_reports_sublist.
    + eexists [], _. split; [exact Hlint |]. simpl. rewrite Hrep, !app_nil_r.
      split; [done |]. right. apply sublist_nil_l.
  - injection Hget as <- <-. eexists [_], _. split; [exact Hlint |]. simpl.
    rewrite Hrep, app_nil_r. split; [reflexivity |]. left. by eexists.
Qed.

(** X19. A node that is neither an import nor a static require, and an
    import of types, leave no trace: the run is the run of the file without
    that node. *)
Theorem unclassified_nodes_leave_no_trace context before node after_it w :
  node = OtherNode ∨
  (∃ value, node = CallExpression value ∧ isStaticRequire node = false) ∨
  (∃ value, node = ImportDeclaration (Some "type") value) →
  lint context (before ++ node :: after_it) w = lint context (before ++ after_it) w.
Proof.
  intros Hnode.
  destruct (create_listeners context w) as (table & w1 & _ & listeners & Hcreate & Hls).
  unfold lint, mbind, M_bind. rewrite Hcreate.
  assert (∀ w', visit listeners node w' = (Normal (), w')) as Hskip.
  { intros w'. destruct table as [deps |].
    - rewrite Hls. destruct Hnode as [-> | [(value & -> & Hstatic) | (value & ->)]]; simpl.
      + done.
      + by rewrite Hstatic.
      + unfold reportIfMissing. by simpl.
    - subst listeners. by destruct node. }
  rewrite !traverse_app. unfold mbind, M_bind.
  destruct (traverse listeners before w1) as [[[] | e] w2]; [| done].
  simpl. unfold mbind, M_bind. by rewrite Hskip.
Qed.

End Traversal.

Section ImportKinds.
Context `{Externals}.

(** X20. Only the kind [type] exempts an import.  A node of any other kind
    (a value import, a [typeof] import, a require call) is classified by
    its specifier alone: two such nodes get the same completion, the same
    calls and the same messages for the same specifier. *)
Theorem only_type_imports_are_exempt deps opts node node' name w :
  importKind_of node ≠ Some "type" →
  importKind_of node' ≠ Some "type" →
  (reportIfMissing deps opts node name w).1 = (reportIfMissing deps opts node' name w).1 ∧
  calls (after (reportIfMissing deps opts node name) w)
  = calls (after (reportIfMissing deps opts node' name) w) ∧
  Report.message <$> reports (after (reportIfMissing deps opts node name) w)
  = Report.message <$> reports (after (reportIfMissing deps opts node' name) w).
Proof.
  intros Hkind Hkind'. unfold after.
  destruct (decide (importType name = "external")) as [Hext | Hext].
  2:{ rewrite !reportIfMissing_exempt by (right; by left). unfold consulted.
      by rewrite (bool_decide_eq_false_2 _ Hkind), (bool_decide_eq_false_2 _ Hkind'). }
  destruct (falsy (resolve name)) eqn:Hres.
  { rewrite !reportIfMissing_exempt by (right; by right). unfold consulted.
    by rewrite (bool_decide_eq_false_2 _ Hkind), (bool_decide_eq_false_2 _ Hkind'). }
  rewrite !reportIfMissing_checkable by done. simpl.
  repeat match goal with |- context [if ?b then _ else _] => destruct b end;
    simpl; by rewrite ?fmap_app.
Qed.

End ImportKinds.

(** ** The further properties on the concrete project *)

Section FurtherExamples.
#[local] Existing Instance Demo.externals.

Local Ltac passes_guards := repeat split; vm_compute; congruence.

(** [jest] is found in [devDependencies] alone: with the flags off, the
    devDependencies message. *)
Lemma verdict_by_priority_witness :
  reportIfMissing Demo.root_deps Demo.strict (CallExpression "jest") "jest/globals" start
  = (Normal (), flagged start "jest/globals"
       {| Report.loc := AtNode (CallExpression "jest");
          Report.message := devDepErrorMessage "jest" |}).
Proof.
  assert (checkable (CallExpression "jest") "jest/globals") as Hc by passes_guards.
  apply (proj2 (proj1 (proj2 (@verdict_by_priority Demo.externals Demo.root_deps Demo.strict
                                (CallExpression "jest") "jest/globals" start Hc))
                      eq_refl eq_refl)).
Defined.

Lemma allowing_more_never_adds_a_report_witness :
  reports (after (reportIfMissing Demo.root_deps Demo.lenient
                    (ImportDeclaration None "lodash") "lodash") start)
  = reports start.
Proof.
  apply (@allowing_more_never_adds_a_report Demo.externals Demo.root_deps
           Demo.strict Demo.lenient (ImportDeclaration None "lodash") "lodash" start);
    [discriminate | discriminate | discriminate | reflexivity].
Defined.

Lemma merging_never_adds_a_report_witness :
  reports (after (reportIfMissing
                    (assignDeps Demo.root_deps (depFields Demo.workspace_manifest))
                    Demo.strict (ImportDeclaration None "lodash") "lodash") start)
  = reports start.
Proof.
  apply (@merging_never_adds_a_report Demo.externals Demo.root_deps
           (depFields Demo.workspace_manifest) Demo.strict
           (ImportDeclaration None "lodash") "lodash" start eq_refl).
Defined.

(** The same keys with other versions. *)
Lemma versions_are_ignored_witness :
  reportIfMissing Demo.root_deps Demo.strict (ImportDeclaration None "jest") "jest" start
  = reportIfMissing
      {| dependencies := {[ "lodash" := "*" ]};
         devDependencies := {[ "jest" := "*" ]};
         optionalDependencies := {[ "fsevents" := "*" ]};
         peerDependencies := {[ "react" := "*" ]} |}
      Demo.strict (ImportDeclaration None "jest") "jest" start.
Proof.
  apply (@versions_are_ignored Demo.externals).
  intros c k. destruct c; simpl; rewrite !lookup_singleton_is_Some; done.
Defined.

Lemma merge_order_changes_no_verdict_witness :
  reportIfMissing (fold_left assignDeps [depFields Demo.workspace_manifest] Demo.root_deps)
                  Demo.strict (CallExpression "left-pad") "left-pad" start
  = reportIfMissing (fold_left assignDeps [Demo.root_deps] (depFields Demo.workspace_manifest))
                    Demo.strict (CallExpression "left-pad") "left-pad" start.
Proof.
  apply (@merge_order_changes_no_verdict Demo.externals). apply Permutation_swap.
Defined.

Lemma globs_are_alternatives_witness :
  testConfig (Globs ["test/**"; "scripts/*"]) "/repo/scripts/build.js"
  = testConfig (Globs ["scripts/*"; "test/**"]) "/repo/scripts/build.js".
Proof.
  apply (proj1 (proj2 (proj2 (@globs_are_alternatives Demo.externals)))).
  apply Permutation_swap.
Defined.

Lemma default_options_report_only_missing_packages_witness :
  reportIfMissing Demo.root_deps (depsOptions_of no_options "/repo/src/a.js")
                  (ImportDeclaration None "left-pad") "left-pad" start
  = (Normal (), flagged start "left-pad"
       {| Report.loc := AtNode (ImportDeclaration None "left-pad");
          Report.message := missingErrorMessage "left-pad" |}).
Proof.
  assert (checkable (ImportDeclaration None "left-pad") "left-pad") as Hc by passes_guards.
  apply (proj2 (proj2 (@default_options_report_only_missing_packages Demo.externals
                         no_options "/repo/src/a.js" Demo.root_deps
                         (ImportDeclaration None "left-pad") "left-pad" start
                         eq_refl eq_refl eq_refl Hc))).
  intros c. by destruct c.
Defined.

(** [a] is merged, [broken] does not parse, [locked] is never read. *)
Lemma first_failure_ends_the_merge_witness :
  mergedDependencies {| getFilename := "/repo/src/a.js"; options0 := None |}
    (ManyDirs ["/repo/packages/a"; "/repo/packages/broken"; "/repo/packages/locked"]) start
  = (Throw Demo.unexpected_end,
     {| reports := [];
        calls := [CallReadPkgUp "/repo/src/a.js";
                  CallReadFileSync "/repo/packages/a/package.json";
                  CallReadFileSync "/repo/packages/broken/package.json"] |}).
Proof.
  assert (Forall2 holds
            (fresh_files [Some "/repo/package.json"] ["/repo/packages/a"])
            [Demo.workspace_manifest]) as Hread.
  { change (Forall2 holds ["/repo/packages/a/package.json"] [Demo.workspace_manifest]).
    constructor; [| constructor]. exists "workspace". split; reflexivity. }
  apply (@first_failure_ends_the_merge Demo.externals
           {| getFilename := "/repo/src/a.js"; options0 := None |}
           {| pkg := Some Demo.root_manifest; path := Some "/repo/package.json" |}
           Demo.root_manifest ["/repo/packages/a"] [Demo.workspace_manifest]
           "/repo/packages/broken" ["/repo/packages/locked"] Demo.unexpected_end start
           eq_refl eq_refl Hread).
  - apply (bool_decide_unpack _). vm_compute. exact I.
  - right. exists "{". split; reflexivity.
Defined.


Lemma unclassified_nodes_leave_no_trace_witness :
  lint {| getFilename := "/repo/src/a.js"; options0 := None |}
       ([ImportDeclaration None "lodash"]
          ++ ImportDeclaration (Some "type") "left-pad" :: [CallExpression "left-pad"]) start
  = lint {| getFilename := "/repo/src/a.js"; options0 := None |}
         ([ImportDeclaration None "lodash"] ++ [CallExpression "left-pad"]) start.
Proof.
  apply (@unclassified_nodes_leave_no_trace Demo.externals).
  right. right. by exists "left-pad".
Defined.

Lemma only_type_imports_are_exempt_witness :
  Report.message <$> reports (after (reportIfMissing Demo.root_deps Demo.strict
                                       (ImportDeclaration (Some "typeof") "jest") "jest") start)
  = Report.message <$> reports (after (reportIfMissing Demo.root_deps Demo.strict
                                         (CallExpression "jest") "jest") start).
Proof.
  apply (proj2 (proj2 (@only_type_imports_are_exempt Demo.externals Demo.root_deps Demo.strict
                         (ImportDeclaration (Some "typeof") "jest") (CallExpression "jest")
                         "jest" start ltac:(discriminate) ltac:(discriminate)))).
Defined.

End FurtherExamples.
